(** * The tree image pipeline: a shallow embedding and its properties

    The development follows [image-analyzer/tree_image_pipeline.py] and
    [image-analyzer/image_analyzer.py].

    - Part 1 models the Python string and path functions the scripts call
      ([str.lower], [str.startswith], [in] on strings, [os.path.basename],
      [os.path.splitext], [os.path.join]) and [is_video].
    - Part 2 models the world the scripts act on: the blob container, the
      local file system, the printed lines and the calls sent to the two
      services, with a state-and-exception monad for Python's control flow.
    - Part 3 is the code of the two scripts, function by function.
    - Part 4 describes what each step sends and writes; part 5 defines a
      few concrete worlds.
    - Part 6 holds the properties, and part 7 runs the scripts on the
      concrete worlds.

    Modelling conventions.  A Python [str] and a Python [bytes] are both
    sequences of 8-bit characters ([string], [list byte]); [str.lower] acts
    on the letters A-Z.  [os.path] is [posixpath].  Paths and blob names are
    compared as plain strings.  The blob service lists names in ascending
    order, every name once.  A server-side copy takes effect at once. *)

From Stdlib Require Import ZArith Ascii String.
From stdpp Require Import base tactics option list sorting gmap strings pretty.

Local Open Scope Z_scope.

(** ** Part 1: strings and paths *)

Module Py.

(** [c.lower()] on one character. *)
Definition lower_char (c : ascii) : ascii :=
  let n := N_of_ascii c in
  if ((65 <=? n) && (n <=? 90))%N then ascii_of_N (n + 32) else c.

(** [s.lower()] *)
Fixpoint lower (s : string) : string :=
  match s with
  | EmptyString => EmptyString
  | String c r => String (lower_char c) (lower r)
  end.

(** [len(s)] *)
Definition len (s : string) : Z := Z.of_nat (String.length s).

(** [s.startswith(p)] *)
Fixpoint startswith (s p : string) {struct p} : bool :=
  match p, s with
  | EmptyString, _ => true
  | String a p', String b s' => Ascii.eqb a b && startswith s' p'
  | String _ _, EmptyString => false
  end.

(** [s.endswith(c)] for a one-character suffix. *)
Fixpoint endswith_char (s : string) (c : ascii) : bool :=
  match s with
  | EmptyString => false
  | String a EmptyString => Ascii.eqb a c
  | String _ r => endswith_char r c
  end.

(** [t in s]: [t] occurs in [s] as a substring. *)
Fixpoint contains (s t : string) : bool :=
  startswith s t ||
  match s with
  | EmptyString => false
  | String _ r => contains r t
  end.

(** [s.rfind(c)] for a one-character needle: the highest index of [c] in
    [s], or [-1]. *)
Fixpoint rfind (s : string) (c : ascii) : Z :=
  match s with
  | EmptyString => -1
  | String a r =>
      let j := rfind r c in
      if 0 <=? j then j + 1 else if Ascii.eqb a c then 0 else -1
  end.

(** [s[i:]] and [s[:i]] for [i >= 0] (the callers below never slice with a
    negative index other than through [max 0]). *)
Fixpoint drop_nat (n : nat) (s : string) : string :=
  match n, s with
  | O, _ => s
  | S n', String _ r => drop_nat n' r
  | S _, EmptyString => EmptyString
  end.

Fixpoint take_nat (n : nat) (s : string) : string :=
  match n, s with
  | O, _ => EmptyString
  | S n', String a r => String a (take_nat n' r)
  | S _, EmptyString => EmptyString
  end.

Definition slice_from (s : string) (i : Z) : string := drop_nat (Z.to_nat i) s.
Definition slice_to (s : string) (i : Z) : string := take_nat (Z.to_nat i) s.
Definition slice (s : string) (i j : Z) : string := slice_from (slice_to s j) i.

(** [posixpath.basename]:
<<
    i = p.rfind('/') + 1
    return p[i:]
>> *)
Definition basename (p : string) : string :=
  let i := rfind p "/" + 1 in
  slice_from p i.

(** The loop of [genericpath._splitext] that skips the leading dots of the
    file name: it answers whether some character of [s] (the characters
    between the last separator and the last dot) is not a dot. *)
Fixpoint has_non_dot (s : string) : bool :=
  match s with
  | EmptyString => false
  | String a r => if Ascii.eqb a "." then has_non_dot r else true
  end.

(** [posixpath.splitext]:
<<
    sepIndex = p.rfind('/')
    dotIndex = p.rfind('.')
    if dotIndex > sepIndex:
        filenameIndex = sepIndex + 1
        while filenameIndex < dotIndex:
            if p[filenameIndex:filenameIndex+1] != '.':
                return p[:dotIndex], p[dotIndex:]
            filenameIndex += 1
    return p, p[:0]
>> *)
Definition splitext (p : string) : string * string :=
  let sepIndex := rfind p "/" in
  let dotIndex := rfind p "." in
  if (sepIndex <? dotIndex) && has_non_dot (slice p (sepIndex + 1) dotIndex)
  then (slice_to p dotIndex, slice_from p dotIndex)
  else (p, EmptyString).

(** [posixpath.join(a, b)]:
<<
    if b.startswith('/'): path = b
    elif not path or path.endswith('/'): path += b
    else: path += '/' + b
>> *)
Definition join (a b : string) : string :=
  if startswith b "/" then b
  else if bool_decide (a = "") || endswith_char a "/" then a +:+ b
  else a +:+ "/" +:+ b.

End Py.

(** ** The constants and [is_video] of [tree_image_pipeline.py] *)

Definition TREE_FOLDER : string := "tree-pictures/".

Definition VIDEO_EXTENSIONS : gset string :=
  {[ ".mp4"; ".mov"; ".avi"; ".mkv"; ".webm" ]}.

(** [os.path.splitext(filename)[1].lower() in VIDEO_EXTENSIONS] *)
Definition is_video (filename : string) : bool :=
  bool_decide (Py.lower (snd (Py.splitext filename)) ∈ VIDEO_EXTENSIONS).

(** ** Part 2: the world of the scripts *)

Abbreviation bytes := (list Byte.byte).

Global Instance byte_eq_dec : EqDecision Byte.byte := Byte.byte_eq_dec.

(** What the vision service answers for one image: the tag names, the
    labels of the detected objects and the caption texts.  An absent object
    list, description or caption list behaves as an empty one in the code
    ([if analysis.objects], [if analysis.description and ...captions]). *)
Record analysis := Analysis {
  a_tags : list string;
  a_objects : list string;
  a_captions : list string;
}.

(** The settings read from the environment at start-up. *)
Record config := Config {
  account_name : string;
  BLOB_CONTAINER : string;
}.

(** The two external services.  The vision service answers an image or
    raises ([None]); each call to the blob service may raise, as told by a
    predicate on its arguments. *)
Record service := Service {
  vision_result : bytes → option analysis;
  upload_fails : string → bool;
  delete_fails : string → bool;
  download_fails : string → bool;
  copy_fails : string → string → bool;
}.

Inductive exn :=
| HttpResponseError (operation target : string)
| ResourceNotFoundError (name : string)
| FileNotFoundError (path : string)
| FileExistsError (path : string)
| IsADirectoryError (path : string).

(** [str(e)] *)
Definition exn_str (e : exn) : string :=
  match e with
  | HttpResponseError op t => op +:+ " failed: " +:+ t
  | ResourceNotFoundError n => "The specified blob does not exist: " +:+ n
  | FileNotFoundError p => "No such file or directory: " +:+ p
  | FileExistsError p => "File exists: " +:+ p
  | IsADirectoryError p => "Is a directory: " +:+ p
  end.

(** The calls sent to the services, in the order they are made (a call
    that raises is recorded too). *)
Inductive call :=
| BlobUpload (name : string) (data : bytes)
| BlobDelete (name : string)
| BlobDownload (name : string)
| BlobCopy (destination source_url : string)
| VisionAnalyze (data : bytes).

Global Instance call_eq_dec : EqDecision call.
Proof. solve_decision. Defined.

Record world := World {
  container : gmap string bytes;   (* the blobs of the container, by name *)
  files : gmap string bytes;       (* the local regular files, by path *)
  dirs : gset string;              (* the local directories, by path *)
  stdout : list string;            (* the printed lines, oldest first *)
  calls : list call;               (* the service calls, oldest first *)
}.

Definition set_container (f : gmap string bytes → gmap string bytes) (w : world) : world :=
  World (f (container w)) (files w) (dirs w) (stdout w) (calls w).
Definition set_files (f : gmap string bytes → gmap string bytes) (w : world) : world :=
  World (container w) (f (files w)) (dirs w) (stdout w) (calls w).
Definition set_dirs (f : gset string → gset string) (w : world) : world :=
  World (container w) (files w) (f (dirs w)) (stdout w) (calls w).
Definition add_stdout (line : string) (w : world) : world :=
  World (container w) (files w) (dirs w) (stdout w ++ [line]) (calls w).
Definition add_call (c : call) (w : world) : world :=
  World (container w) (files w) (dirs w) (stdout w) (calls w ++ [c]).

(** *** The monad: a state of type [world], and Python exceptions *)

Inductive outcome (A : Type) :=
| Ret (a : A)
| Raise (e : exn).
Global Arguments Ret {A} a.
Global Arguments Raise {A} e.

Definition io (A : Type) : Type := world → outcome A * world.

Definition io_ret {A} (a : A) : io A := λ w, (Ret a, w).
Definition io_raise {A} (e : exn) : io A := λ w, (Raise e, w).
Definition io_bind {A B} (m : io A) (k : A → io B) : io B :=
  λ w, match m w with
       | (Ret a, w') => k a w'
       | (Raise e, w') => (Raise e, w')
       end.

(** [try: body except Exception as e: handler(e)] *)
Definition try_except {A} (body : io A) (handler : exn → io A) : io A :=
  λ w, match body w with
       | (Ret a, w') => (Ret a, w')
       | (Raise e, w') => handler e w'
       end.

Declare Scope io_scope.
Delimit Scope io_scope with io.
Bind Scope io_scope with io.
Notation "x <- m ;; k" := (io_bind m (λ x, k))
  (at level 100, m at next level, k at level 200, right associativity) : io_scope.
Notation "m ;; k" := (io_bind m (λ _, k))
  (at level 100, k at level 200, right associativity) : io_scope.

(** [for x in l: body(x)] *)
Fixpoint for_each {A} (l : list A) (body : A → io unit) : io unit :=
  match l with
  | [] => io_ret tt
  | x :: l' => (body x ;; for_each l' body)%io
  end.

Definition print (line : string) : io unit := λ w, (Ret tt, add_stdout line w).

(** *** The local file system ([open], [os.remove], [os.makedirs],
    [os.listdir], [os.path.isfile]) *)

(** [open(path, "wb")]: creates the file or empties it.  It raises on an
    empty path and on the path of a directory; the directory the file goes
    into is not looked at. *)
Definition open_wb (path : string) : io unit := λ w,
  if bool_decide (path = "") then (Raise (FileNotFoundError path), w)
  else if bool_decide (path ∈ dirs w) || Py.endswith_char path "/"
  then (Raise (IsADirectoryError path), w)
  else (Ret tt, set_files (insert path []) w).

(** [f.write(data)] on a file just opened with [open_wb], then its close. *)
Definition write_file (path : string) (data : bytes) : io unit := λ w,
  (Ret tt, set_files (insert path data) w).

(** [open(path, "rb")] and the read of the whole file. *)
Definition read_file (path : string) : io bytes := λ w,
  match files w !! path with
  | Some data => (Ret data, w)
  | None => (Raise (FileNotFoundError path), w)
  end.

(** [os.remove(path)] *)
Definition os_remove (path : string) : io unit := λ w,
  match files w !! path with
  | Some _ => (Ret tt, set_files (delete path) w)
  | None => (Raise (FileNotFoundError path), w)
  end.

(** [os.makedirs(path, exist_ok=True)]: the directory exists afterwards;
    it raises on an empty path and on the path of a regular file.  The
    directories above [path] are not recorded. *)
Definition os_makedirs (path : string) : io unit := λ w,
  if bool_decide (path = "") then (Raise (FileNotFoundError path), w)
  else if bool_decide (path ∈ dom (files w)) then (Raise (FileExistsError path), w)
  else (Ret tt, set_dirs (union {[ path ]}) w).

(** [os.path.isfile(path)] *)
Definition os_path_isfile (path : string) : io bool := λ w,
  (Ret (bool_decide (path ∈ dom (files w))), w).

(** The names in ascending order. *)
Definition sorted_names (s : gset string) : list string :=
  merge_sort String.le (elements s).

(** The entries of a directory: the names of the files and directories
    whose path is [path] joined with their name. *)
Definition dir_entries (w : world) (path : string) : list string :=
  Py.basename <$>
    filter (λ p, Py.basename p ≠ "" ∧ Py.join path (Py.basename p) = p)
           (sorted_names (dom (files w) ∪ dirs w)).

(** [os.listdir(path)] *)
Definition os_listdir (path : string) : io (list string) := λ w,
  if bool_decide (path ∈ dirs w) then (Ret (dir_entries w path), w)
  else (Raise (FileNotFoundError path), w).

(** *** The blob container client *)

Section Services.
Context (cfg : config) (svc : service).

(** [container_client.list_blobs()], as the names of the blobs. *)
Definition list_blobs : io (list string) := λ w,
  (Ret (sorted_names (dom (container w))), w).

(** [container_client.upload_blob(name, data, overwrite=True)] *)
Definition upload_blob (name : string) (data : bytes) : io unit := λ w,
  let w := add_call (BlobUpload name data) w in
  if upload_fails svc name then (Raise (HttpResponseError "upload_blob" name), w)
  else (Ret tt, set_container (insert name data) w).

(** [container_client.delete_blob(name)] *)
Definition delete_blob (name : string) : io unit := λ w,
  let w := add_call (BlobDelete name) w in
  if delete_fails svc name then (Raise (HttpResponseError "delete_blob" name), w)
  else match container w !! name with
       | Some _ => (Ret tt, set_container (delete name) w)
       | None => (Raise (ResourceNotFoundError name), w)
       end.

(** [container_client.get_blob_client(name).download_blob().readall()] *)
Definition download_blob (name : string) : io bytes := λ w,
  let w := add_call (BlobDownload name) w in
  if download_fails svc name then (Raise (HttpResponseError "download_blob" name), w)
  else match container w !! name with
       | Some data => (Ret data, w)
       | None => (Raise (ResourceNotFoundError name), w)
       end.

(** The URL of a blob of the container, and the blob a URL names. *)
Definition blob_url (blob_name : string) : string :=
  "https://" +:+ account_name cfg +:+ ".blob.core.windows.net/" +:+
  BLOB_CONTAINER cfg +:+ "/" +:+ blob_name.

Fixpoint strip_prefix (p s : string) {struct p} : option string :=
  match p, s with
  | EmptyString, _ => Some s
  | String a p', String b s' => if Ascii.eqb a b then strip_prefix p' s' else None
  | String _ _, EmptyString => None
  end.

Definition url_blob_name (url : string) : option string :=
  strip_prefix (blob_url "") url.

(** [container_client.get_blob_client(destination).start_copy_from_url(url)]:
    the service starts the copy and the caller does not wait for it.  The
    copy is taken to be made at once, from the blob the URL names (the name
    goes into the URL as it is). *)
Definition start_copy_from_url (destination url : string) : io unit := λ w,
  let w := add_call (BlobCopy destination url) w in
  if copy_fails svc destination url
  then (Raise (HttpResponseError "start_copy_from_url" url), w)
  else match url_blob_name url ≫= λ source, container w !! source with
       | Some data => (Ret tt, set_container (insert destination data) w)
       | None => (Raise (ResourceNotFoundError url), w)
       end.

(** [vision_client.analyze_image_in_stream(image_stream, ...)] *)
Definition analyze_image_in_stream (data : bytes) : io analysis := λ w,
  let w := add_call (VisionAnalyze data) w in
  match vision_result svc data with
  | Some a => (Ret a, w)
  | None => (Raise (HttpResponseError "analyze_image_in_stream" ""), w)
  end.

(** ** Part 3: the scripts *)

(** *** image_analyzer.py *)

(** [analyze_image_file(image_path, search_term)] *)
Definition analyze_image_file (image_path search_term : string) : io (list string) :=
  try_except
    (print ("Analyzing local image: " +:+ image_path) ;;
     data <- read_file image_path ;;
     analysis <- analyze_image_in_stream data ;;
     let tags := Py.lower <$> a_tags analysis in
     if bool_decide (Py.lower search_term ∈ tags) then
       print ("✓ Found '" +:+ search_term +:+ "' in image tags!") ;;
       io_ret tags
     else if negb (bool_decide (a_objects analysis = [])) &&
             bool_decide (Py.lower search_term ∈ Py.lower <$> a_objects analysis) then
       print ("✓ Found '" +:+ search_term +:+ "' in image objects!") ;;
       io_ret tags
     else if negb (bool_decide (a_captions analysis = [])) &&
             existsb (λ caption, Py.contains caption (Py.lower search_term))
                     (Py.lower <$> a_captions analysis) then
       print ("✓ Found '" +:+ search_term +:+ "' in image description!") ;;
       io_ret tags
     else
       print ("✗ Did not find '" +:+ search_term +:+ "' in image analysis") ;;
       io_ret tags)%io
    (λ e,
       print ("Error analyzing local image " +:+ image_path +:+ ": " +:+ exn_str e) ;;
       io_ret [])%io.

(** *** tree_image_pipeline.py *)

(** [upload_local_images(local_dir)] *)
Definition upload_local_images_body (local_dir fname : string) : io unit :=
  (let fpath := Py.join local_dir fname in
   isfile <- os_path_isfile fpath ;;
   if isfile && negb (is_video fname) then
     print ("Uploading " +:+ fname +:+ " to blob storage...") ;;
     data <- read_file fpath ;;
     upload_blob fname data
   else io_ret tt)%io.

Definition upload_local_images (local_dir : string) : io unit :=
  (names <- os_listdir local_dir ;;
   for_each names (upload_local_images_body local_dir))%io.

(** [clean_blob_storage()] *)
Definition clean_blob_storage_body (name : string) : io unit :=
  (if negb (Py.startswith name TREE_FOLDER) then
     print ("Deleting blob: " +:+ name) ;;
     delete_blob name
   else io_ret tt)%io.

Definition clean_blob_storage : io unit :=
  (blobs <- list_blobs ;;
   for_each blobs clean_blob_storage_body ;;
   print "Blob container cleaned. Only tree-pictures/ folder remains.")%io.

(** [move_blob_to_tree_folder(blob_name)] *)
Definition tree_blob_name (blob_name : string) : string :=
  TREE_FOLDER +:+ Py.basename blob_name.

Definition move_blob_to_tree_folder (blob_name : string) : io unit :=
  (let source_blob := blob_url blob_name in
   start_copy_from_url (tree_blob_name blob_name) source_blob ;;
   print ("Moved " +:+ blob_name +:+ " to " +:+ tree_blob_name blob_name))%io.

(** [any(kw in tag.lower() for tag in tags for kw in keywords)] *)
Definition any_keyword_in_tags (keywords tags : list string) : bool :=
  existsb (λ tag, existsb (λ kw, Py.contains (Py.lower tag) kw) keywords) tags.

(** The loop [for keyword in keywords] of [analyze_and_move_blobs]; its
    result is the value of [found] when the loop is left. *)
Fixpoint keyword_loop (keywords : list string) (temp_path blob_name : string)
    (remaining : list string) : io bool :=
  match remaining with
  | [] => io_ret false
  | keyword :: remaining' =>
      (tags <- analyze_image_file temp_path keyword ;;
       if negb (bool_decide (tags = [])) && any_keyword_in_tags keywords tags then
         move_blob_to_tree_folder blob_name ;;
         io_ret true
       else keyword_loop keywords temp_path blob_name remaining')%io
  end.

Definition temp_path_of (blob_name : string) : string :=
  "temp_" +:+ Py.basename blob_name.

(** [analyze_and_move_blobs(keywords)] *)
Definition analyze_and_move_body (keywords : list string) (blob_name : string) : io unit :=
  (if is_video blob_name then
     print ("Skipping video: " +:+ blob_name)
   else
     let temp_path := temp_path_of blob_name in
     open_wb temp_path ;;
     data <- download_blob blob_name ;;
     write_file temp_path data ;;
     found <- keyword_loop keywords temp_path blob_name keywords ;;
     (if negb found then print ("No target keywords found in " +:+ blob_name)
      else io_ret tt) ;;
     os_remove temp_path)%io.

Definition outside_tree_folder (names : list string) : list string :=
  filter (λ name, Py.startswith name TREE_FOLDER = false) names.

Definition inside_tree_folder (names : list string) : list string :=
  filter (λ name, Py.startswith name TREE_FOLDER = true) names.

Definition analyze_and_move_blobs (keywords : list string) : io unit :=
  (names <- list_blobs ;;
   let blobs := outside_tree_folder names in
   for_each blobs (analyze_and_move_body keywords))%io.

(** [download_tree_media(local_dir)] *)
Definition download_tree_media_body (local_dir blob_name : string) : io unit :=
  (let filename := Py.basename blob_name in
   let local_path := Py.join local_dir filename in
   print ("Downloading " +:+ blob_name +:+ " to " +:+ local_path) ;;
   open_wb local_path ;;
   data <- download_blob blob_name ;;
   write_file local_path data)%io.

Definition download_tree_media (local_dir : string) : io unit :=
  (os_makedirs local_dir ;;
   names <- list_blobs ;;
   let blobs := inside_tree_folder names in
   print ("Found " +:+ pretty (length blobs) +:+ " files in " +:+ TREE_FOLDER) ;;
   for_each blobs (download_tree_media_body local_dir) ;;
   print "Download complete.")%io.

(** [main()]: the steps run in this order, each when its flag or argument
    was given ([if args.upload:] holds for a non-empty string). *)
Record args := Args {
  arg_upload : option string;
  arg_clean : bool;
  arg_analyze : bool;
  arg_download : option string;
  arg_keywords : list string;       (* default: ["tree"] *)
}.

Definition given (a : option string) : option string :=
  match a with
  | Some s => if bool_decide (s = "") then None else Some s
  | None => None
  end.

Definition main (a : args) : io unit :=
  ((match given (arg_upload a) with
    | Some local_dir => upload_local_images local_dir
    | None => io_ret tt
    end) ;;
   (if arg_clean a then clean_blob_storage else io_ret tt) ;;
   (if arg_analyze a then analyze_and_move_blobs (arg_keywords a) else io_ret tt) ;;
   (match given (arg_download a) with
    | Some local_dir => download_tree_media local_dir
    | None => io_ret tt
    end))%io.

End Services.

(** *** image_analyzer.py: the functions that work on URLs *)

(** What these functions reach outside the process: the vision service
    asked about an image URL (an answer, or [None] when the call raises),
    an HTTP GET (status code and body, or [None] when [requests.get]
    raises), and the variable [KEYWORD] of the environment.  These requests
    are not entered in [calls], which keeps the calls of the pipeline. *)
Record web := Web {
  vision_url_result : string → option analysis;
  http_get : string → option (nat * bytes);
  env_KEYWORD : option string;
}.

(** The newline of ["\nAPI ..."]. *)
Definition NL : string := String (ascii_of_nat 10) "".

(** [response.iter_content(n)]: the body in pieces of [n] bytes, the last
    one possibly shorter. *)
Fixpoint iter_content_from (fuel n : nat) (body : bytes) : list bytes :=
  match fuel with
  | O => []
  | S fuel' =>
      match body with
      | [] => []
      | _ => take n body :: iter_content_from fuel' n (drop n body)
      end
  end.

Definition iter_content (n : nat) (body : bytes) : list bytes :=
  iter_content_from (length body) n body.


Section Web.
Context (net : web).

(** [vision_client.analyze_image(image_url, ...)] *)
Definition vision_analyze_image (image_url : string) : io analysis := λ w,
  match vision_url_result net image_url with
  | Some a => (Ret a, w)
  | None => (Raise (HttpResponseError "analyze_image" image_url), w)
  end.


(** [os.environ.get("KEYWORD", "tree")] *)
Definition default_keyword : string := default "tree" (env_KEYWORD net).

(** The search term [analyze_image] works with:
    [if search_term is None or search_term == "": search_term = ...]. *)
Definition effective_term (search_term : option string) : string :=
  match search_term with
  | None => default_keyword
  | Some s => if bool_decide (s = "") then default_keyword else s
  end.

(** [analyze_image(image_url, search_term)] *)
Definition analyze_image (image_url : string) (search_term : option string) : io bool :=
  let search_term := effective_term search_term in
  try_except
    (print ("Analyzing image: " +:+ image_url) ;;
     analysis <- vision_analyze_image image_url ;;
     let tags := Py.lower <$> a_tags analysis in
     if bool_decide (Py.lower search_term ∈ tags) then
       print ("✓ Found '" +:+ search_term +:+ "' in image tags!") ;;
       io_ret true
     else if negb (bool_decide (a_objects analysis = [])) &&
             bool_decide (Py.lower search_term ∈ Py.lower <$> a_objects analysis) then
       print ("✓ Found '" +:+ search_term +:+ "' in image objects!") ;;
       io_ret true
     else if negb (bool_decide (a_captions analysis = [])) &&
             existsb (λ caption, Py.contains caption (Py.lower search_term))
                     (Py.lower <$> a_captions analysis) then
       print ("✓ Found '" +:+ search_term +:+ "' in image description!") ;;
       io_ret true
     else
       print ("✗ Did not find '" +:+ search_term +:+ "' in image analysis") ;;
       io_ret false)%io
    (λ e,
       print ("Error analyzing image " +:+ image_url +:+ ": " +:+ exn_str e) ;;
       io_ret false)%io.


Definition sample_image_url : string :=
  "https://raw.githubusercontent.com/Azure-Samples/cognitive-services-sample-data-files/master/ComputerVision/Images/objects.jpg".

(** [test_vision_api()] *)
Definition test_vision_api : io bool :=
  (print "Testing Azure Computer Vision API with a sample image..." ;;
   try_except
     (result <- analyze_image sample_image_url (Some "laptop") ;;
      (if result
       then print "✓ API test successful! The sample image contains a laptop."
       else print "API test completed, but the sample image doesn't contain the expected content.") ;;
      io_ret true)
     (λ e,
        print ("❌ API test failed: " +:+ exn_str e) ;;
        print "Please check your Azure credentials and network connection." ;;
        io_ret false))%io.

(** The block under [if __name__ == "__main__":] of image_analyzer.py. *)
Definition analyzer_main : io unit :=
  (print "Azure Computer Vision Image Analyzer" ;;
   print "====================================" ;;
   ok <- test_vision_api ;;
   if ok then
     print (NL +:+ "API is working correctly! You can now use this tool to analyze images.") ;;
     print "Usage examples:" ;;
     print "  python image_analyzer.py analyze https://example.com/image.jpg jeans" ;;
     print "  python image_analyzer.py download https://example.com/image.jpg ./downloads image.jpg"
   else
     print (NL +:+ "API test failed. Please check your Azure credentials and try again."))%io.

End Web.

(** ** Part 4: what the steps send and write

    The definitions of this part describe the effect of a step: the calls
    it sends and the writes it makes, as functions of the state the step
    starts from.  The properties of part 6 relate them to the code. *)

(** The upload calls the step sends for the names [l] of directory [d]:
    one for each name that is a regular file and not a video, in order. *)
Definition uploads (fs : gmap string bytes) (d : string) (l : list string) : list call :=
  omap (λ n, if is_video n then None else BlobUpload n <$> fs !! Py.join d n) l.

(** The tags the classifier returns for an image: the lower-cased tag
    names of the service's answer, and none when the service raises. *)
Definition tags_of (svc : service) (data : bytes) : list string :=
  match vision_result svc data with
  | Some a => Py.lower <$> a_tags a
  | None => []
  end.

(** The test of the keyword loop on the tags of one image:
    [tags and any(kw in tag.lower() for tag in tags for kw in keywords)]. *)
Definition tags_match (keywords tags : list string) : bool :=
  negb (bool_decide (tags = [])) && any_keyword_in_tags keywords tags.

(** Whether the loop over [keywords] ends with [found] set: it needs one
    keyword to make a classifier call at all. *)
Definition blob_matches (svc : service) (keywords : list string) (data : bytes) : bool :=
  negb (bool_decide (keywords = [])) && tags_match keywords (tags_of svc data).

(** The calls one iteration of the step sends for blob [b] holding [data]. *)
Definition analyze_calls (cfg : config) (svc : service)
    (keywords : list string) (b : string) (data : bytes) : list call :=
  BlobDownload b ::
  if blob_matches svc keywords data
  then [VisionAnalyze data; BlobCopy (tree_blob_name b) (blob_url cfg b)]
  else replicate (length keywords) (VisionAnalyze data).


(** The blobs of [l] the step hands to the classifier. *)
Definition non_videos (l : list string) : list string :=
  filter (λ b, is_video b = false) l.

(** The copies the step makes for the blobs [l], given the container [c]
    they are read from: destination name and bytes, in order. *)
Definition copies (svc : service) (keywords : list string) (c : gmap string bytes)
    (l : list string) :
    list (string * bytes) :=
  omap (λ b, data ← c !! b;
             if blob_matches svc keywords data then Some (tree_blob_name b, data) else None)
       (non_videos l).

(** The calls the step sends for the blobs [l]. *)
Definition step_calls (cfg : config) (svc : service) (keywords : list string)
    (c : gmap string bytes) (l : list string) :
    list call :=
  mjoin ((λ b, from_option (analyze_calls cfg svc keywords b) [] (c !! b)) <$> non_videos l).

(** A sequence of writes [key := value] applied from left to right: a later
    write to a key replaces an earlier one. *)
Definition apply_writes (ws : list (string * bytes)) (m : gmap string bytes) :
    gmap string bytes :=
  foldl (λ m kv, <[kv.1 := kv.2]> m) m ws.

(** [open(path, "wb")] succeeds on a path that is not empty, is not a
    directory and does not end with the separator. *)
Definition can_open_wb (w : world) (path : string) : Prop :=
  path ≠ "" ∧ (path ∉ dirs w) ∧ Py.endswith_char path "/" = false.

(** The local writes of the download step for the blobs [l] read from the
    container [c]: path and bytes, in order. *)
Definition download_writes (d : string) (c : gmap string bytes) (l : list string) :
    list (string * bytes) :=
  omap (λ b, data ← c !! b; Some (Py.join d (Py.basename b), data)) l.

(** The calls the analyze step may send when it works on the blobs
    [blobs]: downloads of these blobs, classifier calls, and copies of these
    blobs to their name in the target folder; no upload and no deletion. *)
Definition analyze_may_send (cfg : config) (blobs : list string) (c : call) : Prop :=
  match c with
  | BlobDownload b => b ∈ blobs
  | VisionAnalyze _ => True
  | BlobCopy dst url => ∃ b, b ∈ blobs ∧ dst = tree_blob_name b ∧ url = blob_url cfg b
  | BlobUpload _ _ | BlobDelete _ => False
  end.

(** What the analyze step keeps whatever fails, between a state [w] and a
    later state [w']: the blobs outside the target folder, the directories,
    the local files other than the temporary files of [blobs]; and the
    calls it adds are among those it may send. *)
Definition analyze_keeps (cfg : config) (blobs : list string) (w w' : world) : Prop :=
  (∀ k, Py.startswith k TREE_FOLDER = false → container w' !! k = container w !! k) ∧
  dirs w' = dirs w ∧
  (∀ p, p ∉ temp_path_of <$> blobs → files w' !! p = files w !! p) ∧
  ∃ new, calls w' = calls w ++ new ∧ ∀ c, c ∈ new → analyze_may_send cfg blobs c.

(** Whether the lower-case term [t] is a tag of the answer, the label of
    one of its objects, or a part of one of its captions, all lower-cased. *)
Definition analysis_has_term (a : analysis) (t : string) : bool :=
  bool_decide (t ∈ Py.lower <$> a_tags a) ||
  bool_decide (t ∈ Py.lower <$> a_objects a) ||
  existsb (λ caption, Py.contains caption t) (Py.lower <$> a_captions a).

(** ** Part 5: concrete worlds *)

Module Worlds.

Import Byte.

Definition cfg0 : config := Config "acct" "media".

(** A vision service that tags the image [x01] as a tree and the image
    [x02] as a car, and raises on every other image. *)
Definition vision_ab (data : bytes) : option analysis :=
  if decide (data = [x01]) then Some (Analysis ["Tree"; "Plant"] ["Oak"] ["a tree in a field"])
  else if decide (data = [x02]) then Some (Analysis ["Car"] [] [])
  else None.

Definition no_fault : string → bool := λ _, false.

Definition svc_ok : service := Service vision_ab no_fault no_fault no_fault (λ _ _, false).
Definition svc_delete_fails : service :=
  Service vision_ab no_fault (λ name, bool_decide (name = "a.jpg")) no_fault (λ _ _, false).
Definition svc_copy_fails : service :=
  Service vision_ab no_fault no_fault no_fault (λ _ _, true).
Definition svc_vision_down : service :=
  Service (λ _, None) no_fault no_fault no_fault (λ _ _, false).

Definition blobs_only (c : gmap string bytes) : world := World c ∅ ∅ [] [].

(** The content of a map in ascending order of the names. *)
Definition listing (m : gmap string bytes) : list (string * bytes) :=
  omap (λ k, pair k <$> m !! k) (sorted_names (dom m)).

(** Two images outside the target folder. *)
Definition w_ab : world := blobs_only {[ "a.jpg" := [x01]; "b.jpg" := [x02] ]}.

(** Two images of the same base filename in different folders. *)
Definition w_xx : world := blobs_only {[ "a/x.jpg" := [x01]; "b/x.jpg" := [x02] ]}.

(** A container with objects inside and outside the target folder. *)
Definition w_mixed : world :=
  blobs_only {[ "a.jpg" := [x01]; "clip.mp4" := [x03];
                "tree-pictures/z.png" := [x02]; "tree-pictures/sub/y.png" := [x04] ]}.

(** A local directory with an image, a video and a sub-directory, and a
    container that already holds an object named as the image. *)
Definition w_pics : world :=
  World {[ "a.jpg" := [x09] ]}
        {[ "pics/a.jpg" := [x01]; "pics/clip.MP4" := [x03]; "pics/sub/b.jpg" := [x02];
           "other/c.jpg" := [x05] ]}
        {[ "pics"; "pics/sub"; "other" ]} [] [].

(** A local file handed to the classifier. *)
Definition w_img : world := World ∅ {[ "img.jpg" := [x07] ]} ∅ [] [].

End Worlds.

Module MoreWorlds.

Import Byte.

(** A web where the vision service sees a laptop on every image and every
    GET answers 200 with three bytes. *)
Definition net_ok : web :=
  Web (λ _, Some (Analysis ["Laptop"; "Computer"] ["Keyboard"] ["A laptop on a Desk"]))
      (λ _, Some (200%nat, [x01; x02; x03]))
      None.

(** A web where every request raises; KEYWORD is set to "oak". *)
Definition net_down : web := Web (λ _, None) (λ _, None) (Some "oak").

(** Nothing in the container, no local file, no directory. *)
Definition w_empty : world := World ∅ ∅ ∅ [] [].

End MoreWorlds.

(** ** Part 6: properties *)

(** The string functions are unfolded by their lemmas only. *)
Global Arguments Py.startswith : simpl never.
Global Arguments Py.contains : simpl never.
Global Arguments Py.lower : simpl never.
Global Arguments Py.basename : simpl never.
Global Arguments Py.splitext : simpl never.
Global Arguments Py.join : simpl never.
Global Arguments Py.endswith_char : simpl never.
Global Arguments is_video : simpl never.
Global Arguments TREE_FOLDER : simpl never.
Global Arguments sorted_names : simpl never.

(** *** Strings *)

Lemma append_cons (x : ascii) (a b : string) :
  String x a +:+ b = String x (a +:+ b).
Proof. reflexivity. Qed.

Lemma append_assoc (a b c : string) : (a +:+ b) +:+ c = a +:+ (b +:+ c).
Proof. induction a as [|x a IH]; [done|]. by rewrite !append_cons, IH. Qed.

Lemma append_empty_r (a : string) : a +:+ "" = a.
Proof. induction a as [|x a IH]; [done|]. by rewrite append_cons, IH. Qed.

Lemma length_append (a b : string) :
  String.length (a +:+ b) = (String.length a + String.length b)%nat.
Proof. induction a as [|x a IH]; [done|]. rewrite append_cons. simpl. by rewrite IH. Qed.

Lemma startswith_append (p s : string) : Py.startswith (p +:+ s) p = true.
Proof.
  induction p as [|x p IH]; [done|]. rewrite append_cons.
  unfold Py.startswith; fold Py.startswith.
  by rewrite Ascii.eqb_refl, IH.
Qed.

Lemma startswith_spec (s p : string) :
  Py.startswith s p = true ↔ ∃ r, s = p +:+ r.
Proof.
  split.
  - revert s. induction p as [|a p IH]; intros s H.
    + by exists s.
    + destruct s as [|b s]; [done|].
      unfold Py.startswith in H; fold Py.startswith in H.
      apply andb_true_iff in H as [Hab Hs].
      apply Ascii.eqb_eq in Hab as ->.
      destruct (IH _ Hs) as [r ->]. by exists r.
  - intros [r ->]. apply startswith_append.
Qed.

Lemma strip_prefix_append (p s : string) : strip_prefix p (p +:+ s) = Some s.
Proof.
  induction p as [|x p IH]; [done|]. rewrite append_cons. simpl.
  by rewrite Ascii.eqb_refl.
Qed.

(** *** The listing of names *)

Lemma sorted_names_perm (s : gset string) : sorted_names s ≡ₚ elements s.
Proof. apply merge_sort_Permutation. Qed.

Lemma elem_of_sorted_names (s : gset string) (k : string) :
  k ∈ sorted_names s ↔ k ∈ s.
Proof. by rewrite sorted_names_perm, elem_of_elements. Qed.

Lemma NoDup_sorted_names (s : gset string) : NoDup (sorted_names s).
Proof. rewrite sorted_names_perm. apply NoDup_elements. Qed.

Lemma elem_of_outside_tree_folder (names : list string) (k : string) :
  k ∈ outside_tree_folder names ↔ k ∈ names ∧ Py.startswith k TREE_FOLDER = false.
Proof. unfold outside_tree_folder. rewrite list_elem_of_filter. tauto. Qed.

Lemma elem_of_inside_tree_folder (names : list string) (k : string) :
  k ∈ inside_tree_folder names ↔ k ∈ names ∧ Py.startswith k TREE_FOLDER = true.
Proof. unfold inside_tree_folder. rewrite list_elem_of_filter. tauto. Qed.

(** *** The monad *)

Lemma for_each_cons {A} (x : A) (l : list A) (body : A → io unit) (w : world) :
  for_each (x :: l) body w =
  match body x w with
  | (Ret _, w') => for_each l body w'
  | (Raise e, w') => (Raise e, w')
  end.
Proof. reflexivity. Qed.

(** An iteration that raises ends the loop: the exception leaves [for]. *)
Lemma for_each_raise {A} (x : A) (l : list A) (body : A → io unit) (w w' : world) e :
  body x w = (Raise e, w') → for_each (x :: l) body w = (Raise e, w').
Proof. intros H. by rewrite for_each_cons, H. Qed.

Lemma for_each_continue {A} (x : A) (l : list A) (body : A → io unit) (w w' : world) :
  body x w = (Ret tt, w') → for_each (x :: l) body w = for_each l body w'.
Proof. intros H. by rewrite for_each_cons, H. Qed.

(** *** Clean *)

Section Clean.
Context (svc : service).

Lemma clean_body_inside (name : string) (w : world) :
  Py.startswith name TREE_FOLDER = true →
  clean_blob_storage_body svc name w = (Ret tt, w).
Proof. intros H. unfold clean_blob_storage_body. by rewrite H. Qed.

Lemma clean_body_outside (name : string) (w : world) :
  Py.startswith name TREE_FOLDER = false →
  delete_fails svc name = false →
  is_Some (container w !! name) →
  clean_blob_storage_body svc name w =
    (Ret tt, set_container (delete name)
               (add_call (BlobDelete name) (add_stdout ("Deleting blob: " +:+ name) w))).
Proof.
  intros H Hf [d Hd]. unfold clean_blob_storage_body, io_bind, print, delete_blob.
  rewrite H. simpl. by rewrite Hf, Hd.
Qed.

Lemma clean_loop (l : list string) (w : world) :
  NoDup l →
  (∀ k, k ∈ l → is_Some (container w !! k)) →
  (∀ k, k ∈ l → Py.startswith k TREE_FOLDER = false → delete_fails svc k = false) →
  ∃ w', for_each l (clean_blob_storage_body svc) w = (Ret tt, w') ∧
        (∀ k, container w' !! k =
              if decide (k ∈ outside_tree_folder l) then None else container w !! k) ∧
        calls w' = calls w ++ (BlobDelete <$> outside_tree_folder l) ∧
        files w' = files w ∧ dirs w' = dirs w.
Proof.
  revert w. induction l as [|x l IH]; intros w Hnd Hin Hok.
  - exists w. split; [done|]. split; [|by rewrite app_nil_r].
    intros k. case_decide as Hk; [|done]. by apply elem_of_nil in Hk.
  - apply NoDup_cons in Hnd as [Hx Hnd].
    destruct (Py.startswith x TREE_FOLDER) eqn:Hpre.
    + destruct (IH w Hnd) as (w' & Hrun & Hc & Hcalls & Hf & Hd).
      { intros k Hk. apply Hin. by right. }
      { intros k Hk. apply Hok. by right. }
      exists w'. rewrite (for_each_continue _ _ _ _ w) by by apply clean_body_inside.
      split; [done|]. unfold outside_tree_folder in *.
      rewrite filter_cons_False by congruence. done.
    + set (w1 := set_container (delete x)
               (add_call (BlobDelete x) (add_stdout ("Deleting blob: " +:+ x) w))).
      destruct (IH w1 Hnd) as (w' & Hrun & Hc & Hcalls & Hf & Hd).
      { intros k Hk. simpl. rewrite lookup_delete_ne by (by intros ->).
        apply Hin. by right. }
      { intros k Hk. apply Hok. by right. }
      exists w'. rewrite (for_each_continue _ _ _ _ w1).
      2:{ apply clean_body_outside; [done| |].
          - apply Hok; [by left|done].
          - apply Hin. by left. }
      split; [done|]. unfold outside_tree_folder in *.
      rewrite filter_cons_True by done. simpl in *.
      split; [|split; [|done]].
      * intros k. rewrite Hc.
        destruct (decide (k = x)) as [->|Hne].
        -- rewrite lookup_delete_eq.
           rewrite (decide_True (P := x ∈ x :: _)) by by left.
           by case_decide.
        -- rewrite lookup_delete_ne by done.
           repeat case_decide; try done.
           ++ exfalso. match goal with H : ¬ _ |- _ => apply H end. by right.
           ++ match goal with H : k ∈ x :: _ |- _ =>
                apply elem_of_cons in H as [?|?] end; done.
      * rewrite Hcalls. by rewrite <- app_assoc.
Qed.

(** Whatever fails, the loop leaves every object of the target folder as
    it was. *)
Lemma clean_body_inside_untouched (x k : string) (w : world) :
  Py.startswith k TREE_FOLDER = true →
  container (clean_blob_storage_body svc x w).2 !! k = container w !! k.
Proof.
  intros Hk. unfold clean_blob_storage_body.
  destruct (Py.startswith x TREE_FOLDER) eqn:Hx; [done|].
  unfold io_bind, print, delete_blob. simpl.
  destruct (delete_fails svc x); [done|].
  destruct (container w !! x); [|done]. simpl.
  apply lookup_delete_ne. intros ->. congruence.
Qed.

Lemma clean_loop_inside_untouched (l : list string) (k : string) (w : world) :
  Py.startswith k TREE_FOLDER = true →
  container (for_each l (clean_blob_storage_body svc) w).2 !! k = container w !! k.
Proof.
  intros Hk. revert w. induction l as [|x l IH]; intros w; [done|].
  rewrite for_each_cons.
  pose proof (clean_body_inside_untouched x k w Hk) as Hx.
  destruct (clean_blob_storage_body svc x w) as [[[]|e] w1]; simpl in Hx.
  - by rewrite IH.
  - done.
Qed.

End Clean.

(** C6.  Whatever fails, the clean step leaves every object whose name
    starts with "tree-pictures/" as it was.  When no deletion fails, the
    step returns normally, it has sent one delete call for each object whose
    name does not start with "tree-pictures/" and for no other, and
    afterwards the container holds no object without the prefix. *)
Theorem clean_blob_storage_deletes_outside_folder (svc : service) (w : world) :
  (∀ k, Py.startswith k TREE_FOLDER = true →
        container (clean_blob_storage svc w).2 !! k = container w !! k) ∧
  ((∀ k, k ∈ dom (container w) → Py.startswith k TREE_FOLDER = false →
         delete_fails svc k = false) →
   ∃ w', clean_blob_storage svc w = (Ret tt, w') ∧
         (∀ k, container w' !! k =
               if Py.startswith k TREE_FOLDER then container w !! k else None) ∧
         calls w' = calls w ++
           (BlobDelete <$> outside_tree_folder (sorted_names (dom (container w))))).
Proof.
  split.
  { intros k Hk. unfold clean_blob_storage, io_bind, list_blobs, print.
    rewrite <- (clean_loop_inside_untouched svc (sorted_names (dom (container w))) k w Hk).
    by destruct (for_each _ _ w) as [[[]|e] w1]. }
  intros Hok.
  destruct (clean_loop svc (sorted_names (dom (container w))) w)
    as (w' & Hrun & Hc & Hcalls & _ & _).
  { apply NoDup_sorted_names. }
  { intros k Hk. by apply elem_of_dom, elem_of_sorted_names. }
  { intros k Hk. apply Hok. by apply elem_of_sorted_names. }
  exists (add_stdout "Blob container cleaned. Only tree-pictures/ folder remains." w').
  unfold clean_blob_storage, io_bind, list_blobs, print. rewrite Hrun. simpl.
  split; [done|]. split; [|done].
  intros k. rewrite Hc.
  destruct (Py.startswith k TREE_FOLDER) eqn:Hpre.
  - case_decide as Hk; [|done].
    apply elem_of_outside_tree_folder in Hk as [_ Hk]. congruence.
  - case_decide as Hk; [done|].
    destruct (container w !! k) eqn:Hlk; [|done].
    exfalso. apply Hk, elem_of_outside_tree_folder. split; [|done].
    apply elem_of_sorted_names, elem_of_dom. eauto.
Qed.

(** *** Upload *)

Section Upload.
Context (svc : service).

Lemma upload_body_skip (d n : string) (w : world) :
  is_video n = true ∨ files w !! Py.join d n = None →
  upload_local_images_body svc d n w = (Ret tt, w).
Proof.
  intros H. unfold upload_local_images_body, io_bind, os_path_isfile.
  destruct H as [-> | H].
  - by rewrite andb_false_r.
  - rewrite bool_decide_eq_false_2; [done|].
    by apply not_elem_of_dom.
Qed.

Lemma upload_body_send (d n : string) (data : bytes) (w : world) :
  is_video n = false → files w !! Py.join d n = Some data →
  upload_local_images_body svc d n w =
    let w1 := add_call (BlobUpload n data)
                (add_stdout ("Uploading " +:+ n +:+ " to blob storage...") w) in
    if upload_fails svc n then (Raise (HttpResponseError "upload_blob" n), w1)
    else (Ret tt, set_container (insert n data) w1).
Proof.
  intros Hv Hf. unfold upload_local_images_body, io_bind, os_path_isfile.
  rewrite Hv, bool_decide_eq_true_2 by (rewrite elem_of_dom; eauto).
  unfold print, read_file, upload_blob. simpl. by rewrite Hf.
Qed.

(** Whatever fails, the loop leaves the local files alone and sends upload
    calls only for names that are not videos. *)
Lemma upload_loop_safe (d : string) (l : list string) (w : world) :
  ∃ new, calls (for_each l (upload_local_images_body svc d) w).2 = calls w ++ new ∧
         files (for_each l (upload_local_images_body svc d) w).2 = files w ∧
         ∀ c, c ∈ new → ∃ n data, c = BlobUpload n data ∧ n ∈ l ∧ is_video n = false.
Proof.
  revert w. induction l as [|n l IH]; intros w.
  { exists []. simpl. rewrite app_nil_r. split_and!; [done..|]. by intros c ?%elem_of_nil. }
  rewrite for_each_cons.
  destruct (is_video n) eqn:Hv; [|destruct (files w !! Py.join d n) as [data|] eqn:Hf].
  - rewrite upload_body_skip by auto.
    destruct (IH w) as (new & Hc & Hfs & Hnew). exists new. split_and!; [done..|].
    intros c Hin. destruct (Hnew c Hin) as (m & data & -> & ? & ?).
    exists m, data. split_and!; [done| by right |done].
  - rewrite (upload_body_send d n data) by done. cbv zeta.
    destruct (upload_fails svc n).
    + exists [BlobUpload n data]. simpl. split_and!; [done..|].
      intros c ->%list_elem_of_singleton. exists n, data. split_and!; [done| by left |done].
    + match goal with |- context [for_each l _ ?w1] =>
        destruct (IH w1) as (new & Hc & Hfs & Hnew) end.
      exists (BlobUpload n data :: new). rewrite Hc, Hfs. simpl.
      split_and!; [by rewrite <- app_assoc | done |].
      intros c [->|Hin]%elem_of_cons.
      * exists n, data. split_and!; [done| by left |done].
      * destruct (Hnew c Hin) as (m & data' & -> & ? & ?).
        exists m, data'. split_and!; [done| by right |done].
  - rewrite upload_body_skip by auto.
    destruct (IH w) as (new & Hc & Hfs & Hnew). exists new. split_and!; [done..|].
    intros c Hin. destruct (Hnew c Hin) as (m & data & -> & ? & ?).
    exists m, data. split_and!; [done| by right |done].
Qed.

Lemma upload_loop (d : string) (l : list string) (w : world) :
  (∀ n, n ∈ l → upload_fails svc n = false) →
  ∃ w', for_each l (upload_local_images_body svc d) w = (Ret tt, w') ∧
        files w' = files w ∧ dirs w' = dirs w ∧
        calls w' = calls w ++ uploads (files w) d l ∧
        ∀ n, container w' !! n =
             if decide (n ∈ l ∧ is_video n = false ∧ is_Some (files w !! Py.join d n))
             then files w !! Py.join d n else container w !! n.
Proof.
  revert w. induction l as [|n l IH]; intros w Hok.
  { exists w. split_and!; [done..| by rewrite app_nil_r |].
    intros n. case_decide as H; [|done]. destruct H as [?%elem_of_nil _]. done. }
  assert (∀ m, m ∈ l → upload_fails svc m = false) as Hok' by (intros; apply Hok; by right).
  destruct (decide (is_video n = false ∧ is_Some (files w !! Py.join d n)))
    as [[Hv [data Hf]] | Hskip].
  - set (w1 := set_container (insert n data) (add_call (BlobUpload n data)
             (add_stdout ("Uploading " +:+ n +:+ " to blob storage...") w))).
    destruct (IH w1 Hok') as (w' & Hrun & Hfs & Hds & Hcs & Hlk).
    exists w'. rewrite (for_each_continue _ _ _ _ w1).
    2:{ rewrite (upload_body_send d n data) by done. cbv zeta.
        by rewrite Hok by by left. }
    split_and!; [done..| |].
    + rewrite Hcs. unfold uploads. simpl. rewrite Hv, Hf. simpl.
      by rewrite <- app_assoc.
    + intros m. rewrite Hlk. simpl.
      destruct (decide (m = n)) as [->|Hne].
      * rewrite lookup_insert_eq.
        rewrite (decide_True (P := n ∈ n :: l ∧ _)) by (split_and!; [by left|done|eauto]).
        case_decide; [done|]. by rewrite Hf.
      * rewrite lookup_insert_ne by done.
        repeat case_decide; try done.
        -- exfalso. destruct_and!. match goal with H : ¬ _ |- _ => apply H end.
           split_and!; [by right|done..].
        -- exfalso. destruct_and!. match goal with H : ¬ _ |- _ => apply H end.
           split_and!; [|done..].
           match goal with H : m ∈ n :: l |- _ => apply elem_of_cons in H as [?|?] end;
             [congruence|done].
  - assert (is_video n = true ∨ files w !! Py.join d n = None) as Hs.
    { destruct (is_video n); [by left|]. right.
      destruct (files w !! Py.join d n) eqn:E; [|done].
      exfalso. apply Hskip. eauto. }
    destruct (IH w Hok') as (w' & Hrun & Hfs & Hds & Hcs & Hlk).
    exists w'. rewrite (for_each_continue _ _ _ _ w) by by apply upload_body_skip.
    split_and!; [done..| |].
    + rewrite Hcs. unfold uploads. simpl.
      destruct Hs as [-> | ->]; [done|]. by destruct (is_video n).
    + intros m. rewrite Hlk.
      repeat case_decide; try done.
      * exfalso. destruct_and!. match goal with H : ¬ _ |- _ => apply H end.
        split_and!; [by right|done..].
      * exfalso. destruct_and!.
        match goal with H : m ∈ n :: l |- _ => apply elem_of_cons in H as [->|?] end.
        -- by apply Hskip.
        -- match goal with H : ¬ _ |- _ => apply H end. by split_and!.
Qed.

End Upload.

(** C7.  Whatever the directory holds and whatever fails, every upload call
    of the step names a listed file that is not a video.  When the
    directory exists and no upload fails, the step returns normally, sends
    one upload call for each listed regular file that is not a video, with
    the file's bytes and under its base filename, and afterwards the blob of
    that name holds the file's bytes (overwriting what was there); the other
    blobs are as they were. *)
Theorem upload_local_images_uploads_non_videos (svc : service) (local_dir : string) (w : world) :
  (∃ new, calls (upload_local_images svc local_dir w).2 = calls w ++ new ∧
          ∀ c, c ∈ new → ∃ n data, c = BlobUpload n data ∧ is_video n = false) ∧
  (local_dir ∈ dirs w →
   (∀ n, n ∈ dir_entries w local_dir → upload_fails svc n = false) →
   ∃ w', upload_local_images svc local_dir w = (Ret tt, w') ∧
         calls w' = calls w ++ uploads (files w) local_dir (dir_entries w local_dir) ∧
         ∀ n, container w' !! n =
              if decide (n ∈ dir_entries w local_dir ∧ is_video n = false ∧
                         is_Some (files w !! Py.join local_dir n))
              then files w !! Py.join local_dir n
              else container w !! n).
Proof.
  split.
  - unfold upload_local_images, io_bind, os_listdir.
    case_bool_decide.
    + destruct (upload_loop_safe svc local_dir (dir_entries w local_dir) w)
        as (new & Hc & _ & Hnew).
      exists new. split.
      * by destruct (for_each _ _ w) as [[] ?].
      * intros c Hin. destruct (Hnew c Hin) as (n & data & -> & _ & ?). eauto.
    + exists []. simpl. rewrite app_nil_r. split; [done|]. by intros c ?%elem_of_nil.
  - intros Hd Hok.
    destruct (upload_loop svc local_dir _ w Hok) as (w' & Hrun & _ & _ & Hcs & Hlk).
    exists w'. unfold upload_local_images, io_bind, os_listdir.
    rewrite bool_decide_eq_true_2 by done. by rewrite Hrun.
Qed.

(** *** Move *)

Section Move.
Context (cfg : config) (svc : service).

Lemma blob_url_append (b : string) : blob_url cfg b = blob_url cfg "" +:+ b.
Proof. unfold blob_url. by rewrite !append_assoc. Qed.

Lemma url_blob_name_blob_url (b : string) : url_blob_name cfg (blob_url cfg b) = Some b.
Proof.
  unfold url_blob_name. rewrite (blob_url_append b). apply strip_prefix_append.
Qed.

Lemma blob_url_inj (b1 b2 : string) : blob_url cfg b1 = blob_url cfg b2 → b1 = b2.
Proof.
  intros H. rewrite (blob_url_append b1), (blob_url_append b2) in H.
  by apply (inj (String.app _)) in H.
Qed.

Lemma tree_blob_name_inside (b : string) :
  Py.startswith (tree_blob_name b) TREE_FOLDER = true.
Proof. apply startswith_append. Qed.

Lemma move_calls (b : string) (w : world) :
  calls (move_blob_to_tree_folder cfg svc b w).2 =
  calls w ++ [BlobCopy (tree_blob_name b) (blob_url cfg b)].
Proof.
  unfold move_blob_to_tree_folder, io_bind, start_copy_from_url, print. simpl.
  destruct (copy_fails svc _ _); [done|].
  by destruct (url_blob_name cfg (blob_url cfg b) ≫= _).
Qed.

Lemma move_ok (b : string) (data : bytes) (w : world) :
  container w !! b = Some data →
  copy_fails svc (tree_blob_name b) (blob_url cfg b) = false →
  move_blob_to_tree_folder cfg svc b w =
    (Ret tt,
     add_stdout ("Moved " +:+ b +:+ " to " +:+ tree_blob_name b)
       (set_container (insert (tree_blob_name b) data)
          (add_call (BlobCopy (tree_blob_name b) (blob_url cfg b)) w))).
Proof.
  intros Hb Hf.
  unfold move_blob_to_tree_folder, io_bind, start_copy_from_url, print. simpl.
  by rewrite Hf, url_blob_name_blob_url; simpl; rewrite Hb.
Qed.

Lemma move_fails (b : string) (w : world) :
  copy_fails svc (tree_blob_name b) (blob_url cfg b) = true →
  move_blob_to_tree_folder cfg svc b w =
    (Raise (HttpResponseError "start_copy_from_url" (blob_url cfg b)),
     add_call (BlobCopy (tree_blob_name b) (blob_url cfg b)) w).
Proof.
  intros Hf.
  unfold move_blob_to_tree_folder, io_bind, start_copy_from_url, print. simpl.
  by rewrite Hf.
Qed.

End Move.

(** *** The classifier *)

Section Classifier.
Context (svc : service).

(** The classifier always returns; what it returns does not depend on the
    search term; it changes nothing but the printed lines and the record of
    calls. *)
Lemma analyze_image_file_run (image_path search_term : string) (w : world) :
  ∃ out,
    analyze_image_file svc image_path search_term w =
    (Ret (from_option (tags_of svc) [] (files w !! image_path)),
     World (container w) (files w) (dirs w) (stdout w ++ out)
           (calls w ++ from_option (λ data, [VisionAnalyze data]) [] (files w !! image_path))).
Proof.
  unfold analyze_image_file, try_except, io_bind, print, read_file. simpl.
  destruct (files w !! image_path) as [data|]; simpl.
  2:{ eexists [_; _]. unfold add_stdout. simpl.
      by rewrite <- app_assoc, app_nil_r. }
  unfold analyze_image_in_stream, tags_of. simpl.
  destruct (vision_result svc data) as [a|]; simpl.
  2:{ eexists [_; _]. unfold add_stdout. simpl. by rewrite <- app_assoc. }
  repeat match goal with
         | |- context [if ?b then _ else _] => destruct b
         end; simpl; eexists [_; _]; unfold add_stdout; simpl;
    by rewrite <- app_assoc.
Qed.

End Classifier.

(** C4.  The classifier returns normally for every image path and search
    term; and when the call to the vision service raises, it prints a
    diagnostic and returns the empty tag sequence. *)
Theorem analyze_image_file_never_raises (svc : service) (image_path search_term : string)
    (w : world) :
  (∃ tags w', analyze_image_file svc image_path search_term w = (Ret tags, w')) ∧
  (∀ data e w1,
     files w !! image_path = Some data →
     analyze_image_in_stream svc data
       (add_stdout ("Analyzing local image: " +:+ image_path) w) = (Raise e, w1) →
     analyze_image_file svc image_path search_term w =
       (Ret [], add_stdout ("Error analyzing local image " +:+ image_path +:+ ": " +:+
                            exn_str e) w1)).
Proof.
  split.
  - destruct (analyze_image_file_run svc image_path search_term w) as [out ->]. eauto.
  - intros data e w1 Hf Hraise.
    unfold analyze_image_file, try_except, io_bind, print, read_file. simpl.
    rewrite Hf. by rewrite Hraise.
Qed.

(** *** Paths *)

Lemma rfind_cons (a : ascii) (r : string) (c : ascii) :
  Py.rfind (String a r) c =
  if 0 <=? Py.rfind r c then Py.rfind r c + 1 else if Ascii.eqb a c then 0 else -1.
Proof. reflexivity. Qed.

Lemma rfind_bounds (s : string) (c : ascii) : -1 ≤ Py.rfind s c < Py.len s.
Proof.
  unfold Py.len. induction s as [|a r IH]; [simpl; lia|].
  rewrite rfind_cons. simpl String.length.
  destruct (Z.leb_spec 0 (Py.rfind r c)); [lia|].
  destruct (Ascii.eqb a c); lia.
Qed.

(** No occurrence of the separator is left after the last one. *)
Lemma rfind_slice_from_rfind (s : string) (c : ascii) :
  Py.rfind (Py.slice_from s (Py.rfind s c + 1)) c = -1.
Proof.
  unfold Py.slice_from. induction s as [|a r IH]; [done|].
  rewrite rfind_cons. pose proof (rfind_bounds r c) as Hb.
  destruct (Z.leb_spec 0 (Py.rfind r c)).
  - replace (Z.to_nat (Py.rfind r c + 1 + 1)) with (S (Z.to_nat (Py.rfind r c + 1))) by lia.
    done.
  - destruct (Ascii.eqb a c) eqn:Hac.
    + simpl. lia.
    + simpl Py.drop_nat. rewrite rfind_cons, Hac.
      destruct (Z.leb_spec 0 (Py.rfind r c)); lia.
Qed.

Lemma basename_no_sep (p : string) : Py.rfind (Py.basename p) "/" = -1.
Proof. apply rfind_slice_from_rfind. Qed.

Lemma endswith_char_cons (a : ascii) (r : string) (c : ascii) :
  Py.endswith_char (String a r) c =
  match r with EmptyString => Ascii.eqb a c | _ => Py.endswith_char r c end.
Proof. reflexivity. Qed.

Lemma rfind_none_endswith (s : string) (c : ascii) :
  Py.rfind s c = -1 → Py.endswith_char s c = false.
Proof.
  induction s as [|a r IH]; [done|].
  rewrite rfind_cons, endswith_char_cons. pose proof (rfind_bounds r c).
  destruct (Z.leb_spec 0 (Py.rfind r c)); [lia|].
  destruct (Ascii.eqb a c); [lia|]. intros _.
  destruct r; [done|]. apply IH. lia.
Qed.

Lemma endswith_char_append (p s : string) (c : ascii) :
  s ≠ "" → Py.endswith_char (p +:+ s) c = Py.endswith_char s c.
Proof.
  intros Hs. induction p as [|a p IH]; [done|].
  rewrite append_cons, endswith_char_cons, IH.
  destruct (p +:+ s) eqn:E; [|done].
  destruct p; [|done]. simpl in E. done.
Qed.

Lemma temp_path_not_dir_like (b : string) :
  Py.endswith_char (temp_path_of b) "/" = false.
Proof.
  unfold temp_path_of. destruct (decide (Py.basename b = "")) as [->|Hne]; [done|].
  rewrite endswith_char_append by done.
  apply rfind_none_endswith, basename_no_sep.
Qed.

Lemma open_wb_temp (b : string) (w : world) :
  temp_path_of b ∉ dirs w →
  open_wb (temp_path_of b) w = (Ret tt, set_files (insert (temp_path_of b) []) w).
Proof.
  intros Hd. unfold open_wb.
  rewrite bool_decide_eq_false_2 by done.
  rewrite bool_decide_eq_false_2 by done.
  by rewrite temp_path_not_dir_like.
Qed.

(** *** Analyze and move *)

Section Analyze.
Context (cfg : config) (svc : service).

Lemma keyword_loop_no_match (keywords : list string) (temp_path b : string)
    (data : bytes) (remaining : list string) (w : world) :
  files w !! temp_path = Some data →
  tags_match keywords (tags_of svc data) = false →
  ∃ out,
    keyword_loop cfg svc keywords temp_path b remaining w =
    (Ret false,
     World (container w) (files w) (dirs w) (stdout w ++ out)
           (calls w ++ replicate (length remaining) (VisionAnalyze data))).
Proof.
  intros Hf Hm. revert w Hf. induction remaining as [|kw rest IH]; intros w Hf.
  - exists []. simpl. unfold io_ret. rewrite !app_nil_r. by destruct w.
  - simpl. unfold io_bind.
    destruct (analyze_image_file_run svc temp_path kw w) as [out ->].
    rewrite Hf. simpl. fold (tags_match keywords (tags_of svc data)). rewrite Hm.
    match goal with |- context [keyword_loop _ _ _ _ _ _ ?w1] =>
      destruct (IH w1 Hf) as [out' ->] end.
    exists (out ++ out'). simpl. by rewrite <- !app_assoc.
Qed.

Lemma keyword_loop_match (keywords : list string) (temp_path b : string)
    (data : bytes) (kw : string) (rest : list string) (w : world) :
  files w !! temp_path = Some data →
  tags_match keywords (tags_of svc data) = true →
  ∃ out,
    keyword_loop cfg svc keywords temp_path b (kw :: rest) w =
    match move_blob_to_tree_folder cfg svc b
            (World (container w) (files w) (dirs w) (stdout w ++ out)
                   (calls w ++ [VisionAnalyze data])) with
    | (Ret _, w') => (Ret true, w')
    | (Raise e, w') => (Raise e, w')
    end.
Proof.
  intros Hf Hm. simpl. unfold io_bind.
  destruct (analyze_image_file_run svc temp_path kw w) as [out ->].
  rewrite Hf. simpl. fold (tags_match keywords (tags_of svc data)). rewrite Hm.
  exists out. by destruct (move_blob_to_tree_folder _ _ _ _) as [[] ?].
Qed.

Lemma analyze_body_video (keywords : list string) (b : string) (w : world) :
  is_video b = true →
  analyze_and_move_body cfg svc keywords b w =
    (Ret tt, add_stdout ("Skipping video: " +:+ b) w).
Proof. intros H. unfold analyze_and_move_body. by rewrite H. Qed.

(** One iteration on a blob that is not a video, when the download and the
    copy do not fail: whatever the classifier answers, the iteration ends
    normally with the temporary file removed. *)
Lemma analyze_body_ok (keywords : list string) (b : string) (data : bytes) (w : world) :
  is_video b = false →
  container w !! b = Some data →
  download_fails svc b = false →
  (blob_matches svc keywords data = true →
   copy_fails svc (tree_blob_name b) (blob_url cfg b) = false) →
  temp_path_of b ∉ dirs w →
  ∃ w', analyze_and_move_body cfg svc keywords b w = (Ret tt, w') ∧
        files w' = delete (temp_path_of b) (files w) ∧
        dirs w' = dirs w ∧
        container w' = (if blob_matches svc keywords data
                        then <[tree_blob_name b := data]> (container w)
                        else container w) ∧
        calls w' = calls w ++ analyze_calls cfg svc keywords b data.
Proof.
  intros Hv Hb Hdl Hcp Hdir.
  unfold analyze_and_move_body. rewrite Hv. unfold io_bind at 1.
  rewrite open_wb_temp by done.
  unfold io_bind at 1. unfold download_blob. simpl. rewrite Hdl, Hb.
  unfold io_bind at 1. unfold write_file. simpl.
  set (w1 := set_files _ _).
  assert (files w1 !! temp_path_of b = Some data) as Hf1.
  { subst w1. simpl. by rewrite lookup_insert_eq. }
  assert (files w1 = <[temp_path_of b := data]> (files w)) as Hfs1.
  { subst w1. simpl. by rewrite insert_insert_eq. }
  assert (container w1 = container w ∧ dirs w1 = dirs w ∧
          calls w1 = calls w ++ [BlobDownload b]) as (Hc1 & Hd1 & Hcs1) by done.
  clearbody w1.
  unfold analyze_calls, blob_matches.
  destruct keywords as [|kw rest];
    [|destruct (tags_match (kw :: rest) (tags_of svc data)) eqn:Hm].
  - (* no keyword: the loop body never runs *)
    rewrite bool_decide_eq_true_2 by done.
    simpl. unfold io_bind, io_ret, print, os_remove. simpl. rewrite Hf1.
    eexists. split; [done|]. simpl.
    rewrite Hfs1, delete_insert_eq, Hcs1. done.
  - (* match: the blob is copied *)
    rewrite bool_decide_eq_false_2 by done.
    unfold io_bind at 1.
    destruct (keyword_loop_match (kw :: rest) (temp_path_of b) b data kw rest w1 Hf1 Hm)
      as [out ->].
    rewrite (move_ok cfg svc b data).
    2:{ simpl; congruence. }
    2:{ apply Hcp. unfold blob_matches. by rewrite Hm, bool_decide_eq_false_2. }
    simpl.
    unfold io_bind, io_ret, os_remove. simpl. rewrite Hf1.
    eexists. split; [done|]. simpl.
    rewrite Hfs1, delete_insert_eq, Hc1, Hd1, Hcs1.
    by rewrite <- !app_assoc.
  - (* no match *)
    rewrite bool_decide_eq_false_2 by done.
    unfold io_bind at 1.
    destruct (keyword_loop_no_match (kw :: rest) (temp_path_of b) b data (kw :: rest) w1 Hf1 Hm)
      as [out ->].
    unfold io_bind, io_ret, print, os_remove. simpl. rewrite Hf1.
    eexists. split; [done|]. simpl.
    rewrite Hfs1, delete_insert_eq, Hc1, Hd1, Hcs1.
    by rewrite <- app_assoc.
Qed.

End Analyze.

(** *** Writes into a map, in order *)

Lemma apply_writes_cons kv ws (m : gmap string bytes) :
  apply_writes (kv :: ws) m = apply_writes ws (<[kv.1 := kv.2]> m).
Proof. reflexivity. Qed.

Lemma apply_writes_app ws1 ws2 (m : gmap string bytes) :
  apply_writes (ws1 ++ ws2) m = apply_writes ws2 (apply_writes ws1 m).
Proof. apply foldl_app. Qed.

Lemma lookup_apply_writes_other ws (m : gmap string bytes) (k : string) :
  k ∉ ws.*1 → apply_writes ws m !! k = m !! k.
Proof.
  revert m. induction ws as [|[k' v] ws IH]; intros m Hk; [done|].
  rewrite apply_writes_cons, IH.
  - simpl. apply lookup_insert_ne. intros ->. apply Hk. by left.
  - intros ?. apply Hk. by right.
Qed.

(** The last write to a key decides its value. *)
Lemma lookup_apply_writes_last ws1 ws2 (m : gmap string bytes) (k : string) (v : bytes) :
  k ∉ ws2.*1 → apply_writes (ws1 ++ (k, v) :: ws2) m !! k = Some v.
Proof.
  intros Hk. rewrite apply_writes_app, apply_writes_cons.
  rewrite lookup_apply_writes_other by done. apply lookup_insert_eq.
Qed.

Lemma lookup_apply_writes_written ws (m : gmap string bytes) (k : string) :
  k ∈ ws.*1 → ∃ v, (k, v) ∈ ws ∧ apply_writes ws m !! k = Some v.
Proof.
  revert m. induction ws as [|[k' v'] ws IH] using rev_ind; intros m Hk.
  { by apply elem_of_nil in Hk. }
  rewrite fmap_app in Hk. rewrite apply_writes_app. simpl.
  destruct (decide (k = k')) as [->|Hne].
  - exists v'. rewrite lookup_insert_eq. split; [|done].
    apply elem_of_app. right. by left.
  - rewrite lookup_insert_ne by done.
    apply elem_of_app in Hk as [Hk|Hk].
    + destruct (IH m Hk) as (v & Hin & Hlk). exists v. split; [|done].
      apply elem_of_app. by left.
    + apply list_elem_of_singleton in Hk. simpl in Hk. congruence.
Qed.

Lemma lookup_apply_writes_unique ws (m : gmap string bytes) (k : string) (v : bytes) :
  (k, v) ∈ ws → (∀ v', (k, v') ∈ ws → v' = v) → apply_writes ws m !! k = Some v.
Proof.
  intros Hin Huniq.
  destruct (lookup_apply_writes_written ws m k) as (v' & Hin' & ->).
  { apply list_elem_of_fmap. by exists (k, v). }
  by rewrite (Huniq v' Hin').
Qed.

(** *** The analyze-and-move loop *)

Section AnalyzeLoop.
Context (cfg : config) (svc : service).

Lemma insert_tree_blob_outside (b k : string) (data : bytes) (c : gmap string bytes) :
  Py.startswith k TREE_FOLDER = false →
  <[tree_blob_name b := data]> c !! k = c !! k.
Proof.
  intros Hk. apply lookup_insert_ne. intros <-.
  by rewrite tree_blob_name_inside in Hk.
Qed.

Lemma analyze_loop (keywords : list string) (c0 : gmap string bytes) (l : list string)
    (w : world) :
  (∀ k, Py.startswith k TREE_FOLDER = false → container w !! k = c0 !! k) →
  (∀ b, b ∈ l → Py.startswith b TREE_FOLDER = false) →
  (∀ b, b ∈ non_videos l →
        is_Some (c0 !! b) ∧ download_fails svc b = false ∧
        copy_fails svc (tree_blob_name b) (blob_url cfg b) = false ∧
        temp_path_of b ∉ dirs w) →
  ∃ w', for_each l (analyze_and_move_body cfg svc keywords) w = (Ret tt, w') ∧
        dirs w' = dirs w ∧
        container w' = apply_writes (copies svc keywords c0 l) (container w) ∧
        (∀ p, files w' !! p =
              if decide (p ∈ temp_path_of <$> non_videos l) then None else files w !! p) ∧
        calls w' = calls w ++ step_calls cfg svc keywords c0 l.
Proof.
  revert w. induction l as [|b l IH]; intros w Hinv Hout Hok.
  { exists w. split_and!; [done..| |by rewrite app_nil_r].
    intros p. case_decide as H; [|done]. by apply elem_of_nil in H. }
  assert (∀ b', b' ∈ l → Py.startswith b' TREE_FOLDER = false) as Hout'
    by (intros; apply Hout; by right).
  unfold copies, step_calls, non_videos in *.
  destruct (is_video b) eqn:Hv.
  - rewrite filter_cons_False in * by congruence.
    destruct (IH (add_stdout ("Skipping video: " +:+ b) w)) as (w' & Hrun & Hd & Hc & Hf & Hcs);
      [done..|].
    exists w'. rewrite (for_each_continue _ _ _ _ _ (analyze_body_video cfg svc keywords b w Hv)).
    done.
  - rewrite filter_cons_True in * by done.
    destruct (Hok b) as ([data Hb0] & Hdl & Hcp & Hdir); [by left|].
    assert (container w !! b = Some data) as Hb.
    { rewrite Hinv; [done|]. apply Hout. by left. }
    destruct (analyze_body_ok cfg svc keywords b data w Hv Hb Hdl (λ _, Hcp) Hdir)
      as (w1 & Hrun1 & Hf1 & Hd1 & Hc1 & Hcs1).
    destruct (IH w1) as (w' & Hrun & Hd & Hc & Hf & Hcs); [|done| |].
    { intros k Hk. rewrite Hc1, <- (Hinv k Hk).
      destruct (blob_matches svc keywords data); [|done].
      by apply insert_tree_blob_outside. }
    { intros b' Hb'. rewrite Hd1. apply Hok. by right. }
    exists w'. rewrite (for_each_continue _ _ _ _ _ Hrun1).
    split_and!; [done|congruence| | |].
    + rewrite Hc, Hc1. simpl. rewrite Hb0. simpl.
      by destruct (blob_matches svc keywords data).
    + intros p. rewrite Hf, Hf1. rewrite fmap_cons.
      destruct (decide (p = temp_path_of b)) as [->|Hne].
      * rewrite lookup_delete_eq.
        rewrite (decide_True (P := _ ∈ _ :: _)) by by left.
        by case_decide.
      * rewrite lookup_delete_ne by done.
        repeat case_decide; try done.
        -- exfalso. match goal with H : ¬ _ |- _ => apply H end. by right.
        -- match goal with H : p ∈ _ :: _ |- _ =>
             apply elem_of_cons in H as [?|?] end; done.
    + rewrite Hcs, Hcs1. simpl. rewrite Hb0. simpl. by rewrite <- app_assoc.
Qed.

End AnalyzeLoop.

(** The whole step, when no download and no copy fails and no directory
    sits at a temporary path: it returns normally; the container receives
    the copies of the matching blobs; the temporary paths are free again and
    the other local files are as they were. *)
Lemma analyze_and_move_blobs_run (cfg : config) (svc : service)
    (keywords : list string) (w : world) :
  let blobs := outside_tree_folder (sorted_names (dom (container w))) in
  (∀ b, b ∈ non_videos blobs →
        download_fails svc b = false ∧
        copy_fails svc (tree_blob_name b) (blob_url cfg b) = false ∧
        temp_path_of b ∉ dirs w) →
  ∃ w', analyze_and_move_blobs cfg svc keywords w = (Ret tt, w') ∧
        dirs w' = dirs w ∧
        container w' = apply_writes (copies svc keywords (container w) blobs) (container w) ∧
        (∀ p, files w' !! p =
              if decide (p ∈ temp_path_of <$> non_videos blobs) then None else files w !! p) ∧
        calls w' = calls w ++ step_calls cfg svc keywords (container w) blobs.
Proof.
  intros blobs Hok.
  destruct (analyze_loop cfg svc keywords (container w) blobs w)
    as (w' & Hrun & Hrest); [done| | |].
  { intros b Hb. by apply elem_of_outside_tree_folder in Hb as [_ ?]. }
  { intros b Hb. destruct (Hok b Hb) as (? & ? & ?). split_and!; [|done..].
    apply list_elem_of_filter in Hb as [_ Hb].
    apply elem_of_outside_tree_folder in Hb as [Hb _].
    by apply elem_of_dom, elem_of_sorted_names. }
  exists w'. split; [|done].
  unfold analyze_and_move_blobs, io_bind, list_blobs. by rewrite <- Hrun.
Qed.

Lemma elem_of_step_blobs (w : world) (b : string) :
  b ∈ non_videos (outside_tree_folder (sorted_names (dom (container w)))) ↔
  b ∈ dom (container w) ∧ Py.startswith b TREE_FOLDER = false ∧ is_video b = false.
Proof.
  unfold non_videos. rewrite list_elem_of_filter, elem_of_outside_tree_folder.
  rewrite elem_of_sorted_names. tauto.
Qed.

(** C5 (amended).  When no download and no copy fails and no directory sits
    at a temporary path, the step returns normally and the temporary file of
    every blob it processed (outside the target folder, not a video) is gone
    afterwards, whatever the classifier answered for it: a match, no match
    or an error. *)
Theorem analyze_and_move_removes_temp_files (cfg : config) (svc : service)
    (keywords : list string) (w : world) :
  (∀ b, b ∈ dom (container w) → Py.startswith b TREE_FOLDER = false → is_video b = false →
        download_fails svc b = false ∧
        copy_fails svc (tree_blob_name b) (blob_url cfg b) = false ∧
        temp_path_of b ∉ dirs w) →
  ∃ w', analyze_and_move_blobs cfg svc keywords w = (Ret tt, w') ∧
        ∀ b, b ∈ dom (container w) → Py.startswith b TREE_FOLDER = false →
             is_video b = false → files w' !! temp_path_of b = None.
Proof.
  intros Hok.
  destruct (analyze_and_move_blobs_run cfg svc keywords w) as (w' & Hrun & _ & _ & Hf & _).
  { intros b (? & ? & ?)%elem_of_step_blobs. by apply Hok. }
  exists w'. split; [done|]. intros b Hb Ho Hv. rewrite Hf.
  rewrite decide_True; [done|].
  apply list_elem_of_fmap. exists b. split; [done|]. by apply elem_of_step_blobs.
Qed.

(** *** Failures of single calls *)

Section Failures.
Context (cfg : config) (svc : service).

Lemma clean_body_delete_fails (b : string) (w : world) :
  Py.startswith b TREE_FOLDER = false → delete_fails svc b = true →
  clean_blob_storage_body svc b w =
    (Raise (HttpResponseError "delete_blob" b),
     add_call (BlobDelete b) (add_stdout ("Deleting blob: " +:+ b) w)).
Proof.
  intros Hb Hf. unfold clean_blob_storage_body, io_bind, print, delete_blob.
  rewrite Hb. simpl. by rewrite Hf.
Qed.

Lemma upload_body_upload_fails (d n : string) (data : bytes) (w : world) :
  is_video n = false → files w !! Py.join d n = Some data → upload_fails svc n = true →
  upload_local_images_body svc d n w =
    (Raise (HttpResponseError "upload_blob" n),
     add_call (BlobUpload n data)
       (add_stdout ("Uploading " +:+ n +:+ " to blob storage...") w)).
Proof.
  intros Hv Hd Hf. rewrite (upload_body_send svc d n data) by done. cbv zeta.
  by rewrite Hf.
Qed.

Lemma analyze_body_download_fails (keywords : list string) (b : string) (w : world) :
  is_video b = false → temp_path_of b ∉ dirs w → download_fails svc b = true →
  analyze_and_move_body cfg svc keywords b w =
    (Raise (HttpResponseError "download_blob" b),
     add_call (BlobDownload b) (set_files (insert (temp_path_of b) []) w)).
Proof.
  intros Hv Hdir Hf. unfold analyze_and_move_body. rewrite Hv. unfold io_bind at 1.
  rewrite open_wb_temp by done.
  unfold io_bind at 1. unfold download_blob. simpl. by rewrite Hf.
Qed.

Lemma analyze_body_copy_fails (keywords : list string) (b : string) (data : bytes)
    (w : world) :
  is_video b = false → container w !! b = Some data → download_fails svc b = false →
  temp_path_of b ∉ dirs w →
  blob_matches svc keywords data = true →
  copy_fails svc (tree_blob_name b) (blob_url cfg b) = true →
  ∃ w', analyze_and_move_body cfg svc keywords b w =
          (Raise (HttpResponseError "start_copy_from_url" (blob_url cfg b)), w') ∧
        files w' = <[temp_path_of b := data]> (files w) ∧
        container w' = container w ∧
        calls w' = calls w ++ [BlobDownload b; VisionAnalyze data;
                               BlobCopy (tree_blob_name b) (blob_url cfg b)].
Proof.
  intros Hv Hb Hdl Hdir Hm Hcp.
  unfold analyze_and_move_body. rewrite Hv. unfold io_bind at 1.
  rewrite open_wb_temp by done.
  unfold io_bind at 1. unfold download_blob. simpl. rewrite Hdl, Hb.
  unfold io_bind at 1. unfold write_file. simpl.
  set (w1 := set_files _ _).
  assert (files w1 !! temp_path_of b = Some data) as Hf1.
  { subst w1. simpl. by rewrite lookup_insert_eq. }
  assert (files w1 = <[temp_path_of b := data]> (files w)) as Hfs1.
  { subst w1. simpl. by rewrite insert_insert_eq. }
  assert (container w1 = container w ∧ calls w1 = calls w ++ [BlobDownload b])
    as (Hc1 & Hcs1) by done.
  clearbody w1. unfold blob_matches in Hm.
  apply andb_true_iff in Hm as [Hk Hm].
  destruct keywords as [|kw rest]; [done|].
  unfold io_bind at 1.
  destruct (keyword_loop_match cfg svc (kw :: rest) (temp_path_of b) b data kw rest w1 Hf1 Hm)
    as [out ->].
  rewrite move_fails by done. eexists. split; [done|]. simpl.
  rewrite Hcs1. by rewrite <- !app_assoc.
Qed.

(** A blob whose classification fails is not moved, and the loop goes on
    with the next blob. *)
Lemma analyze_body_classifier_fails (keywords : list string) (b : string) (data : bytes)
    (w : world) :
  is_video b = false → container w !! b = Some data → download_fails svc b = false →
  temp_path_of b ∉ dirs w →
  vision_result svc data = None →
  ∃ w', analyze_and_move_body cfg svc keywords b w = (Ret tt, w') ∧
        container w' = container w ∧
        files w' = delete (temp_path_of b) (files w) ∧
        calls w' = calls w ++ BlobDownload b :: replicate (length keywords) (VisionAnalyze data).
Proof.
  intros Hv Hb Hdl Hdir Hvis.
  assert (blob_matches svc keywords data = false) as Hm.
  { unfold blob_matches, tags_match, tags_of. rewrite Hvis.
    rewrite (bool_decide_eq_true_2 ([] = [])) by done. apply andb_false_r. }
  destruct (analyze_body_ok cfg svc keywords b data w Hv Hb Hdl) as (w' & Hrun & Hf & _ & Hc & Hcs);
    [congruence|done|].
  exists w'. unfold analyze_calls in Hcs. rewrite Hm in Hc, Hcs. done.
Qed.

End Failures.

(** *** Download *)

Lemma rfind_none_startswith (s : string) (c : ascii) :
  Py.rfind s c = -1 → Py.startswith s (String c "") = false.
Proof.
  destruct s as [|a r]; [done|].
  rewrite rfind_cons. pose proof (rfind_bounds r c).
  destruct (Z.leb_spec 0 (Py.rfind r c)); [lia|].
  unfold Py.startswith. rewrite (Ascii.eqb_sym c a).
  destruct (Ascii.eqb a c); [lia|done].
Qed.

Lemma join_basename (d p : string) :
  Py.join d (Py.basename p) = d +:+ Py.basename p ∨
  Py.join d (Py.basename p) = d +:+ "/" +:+ Py.basename p.
Proof.
  unfold Py.join.
  rewrite (rfind_none_startswith _ _ (basename_no_sep p)).
  destruct (_ || _); auto.
Qed.

Lemma append_ne_l (d x : string) : x ≠ "" → d +:+ x ≠ d.
Proof.
  intros Hx Heq. apply (f_equal String.length) in Heq.
  rewrite length_append in Heq. destruct x; [done|]. simpl in Heq. lia.
Qed.

Lemma append_ne_empty (d x : string) : d ≠ "" → d +:+ x ≠ "".
Proof. destruct d; [done|]. by rewrite append_cons. Qed.

Lemma open_wb_ok (path : string) (w : world) :
  can_open_wb w path → open_wb path w = (Ret tt, set_files (insert path []) w).
Proof.
  intros (Hne & Hd & He). unfold open_wb.
  rewrite bool_decide_eq_false_2 by done.
  rewrite bool_decide_eq_false_2 by done.
  by rewrite He.
Qed.

(** A file named after a blob's base filename can be opened for writing in
    directory [d] when the base filename is not empty and no directory has
    that path. *)
Lemma can_open_wb_join (d b : string) (w : world) :
  d ≠ "" → Py.basename b ≠ "" →
  Py.join d (Py.basename b) ∉ dirs w →
  Py.join d (Py.basename b) ≠ d ∧ can_open_wb w (Py.join d (Py.basename b)).
Proof.
  intros Hd Hb Hdir. unfold can_open_wb.
  pose proof (rfind_none_endswith _ _ (basename_no_sep b)) as He.
  destruct (join_basename d b) as [E|E]; rewrite E in *.
  - split_and!; [by apply append_ne_l|by apply append_ne_empty|done|].
    by rewrite endswith_char_append.
  - split_and!; [apply append_ne_l; by rewrite append_cons
                |by apply append_ne_empty|done|].
    rewrite endswith_char_append by by rewrite append_cons.
    by rewrite (endswith_char_append "/").
Qed.

Section Download.
Context (svc : service).

Lemma download_body_ok (d b : string) (data : bytes) (w : world) :
  container w !! b = Some data → download_fails svc b = false →
  can_open_wb w (Py.join d (Py.basename b)) →
  ∃ w', download_tree_media_body svc d b w = (Ret tt, w') ∧
        container w' = container w ∧ dirs w' = dirs w ∧
        files w' = <[Py.join d (Py.basename b) := data]> (files w) ∧
        calls w' = calls w ++ [BlobDownload b].
Proof.
  intros Hb Hdl Hopen.
  unfold download_tree_media_body. cbv zeta.
  unfold io_bind at 1. unfold print at 1.
  unfold io_bind at 1. rewrite open_wb_ok by done.
  unfold io_bind, download_blob, write_file. simpl. rewrite Hdl, Hb.
  eexists. split; [done|]. simpl. by rewrite insert_insert_eq.
Qed.

Lemma download_body_download_fails (d b : string) (w : world) :
  download_fails svc b = true →
  can_open_wb w (Py.join d (Py.basename b)) →
  ∃ w', download_tree_media_body svc d b w =
          (Raise (HttpResponseError "download_blob" b), w') ∧
        container w' = container w ∧
        files w' = <[Py.join d (Py.basename b) := []]> (files w) ∧
        calls w' = calls w ++ [BlobDownload b].
Proof.
  intros Hdl Hopen.
  unfold download_tree_media_body. cbv zeta.
  unfold io_bind at 1. unfold print at 1.
  unfold io_bind at 1. rewrite open_wb_ok by done.
  unfold io_bind, download_blob, write_file. simpl. rewrite Hdl.
  eexists. by split.
Qed.

Lemma download_loop (d : string) (l : list string) (w : world) :
  (∀ b, b ∈ l → is_Some (container w !! b) ∧ download_fails svc b = false ∧
                can_open_wb w (Py.join d (Py.basename b))) →
  ∃ w', for_each l (download_tree_media_body svc d) w = (Ret tt, w') ∧
        container w' = container w ∧ dirs w' = dirs w ∧
        files w' = apply_writes (download_writes d (container w) l) (files w) ∧
        calls w' = calls w ++ (BlobDownload <$> l).
Proof.
  revert w. induction l as [|b l IH]; intros w Hok.
  { exists w. split_and!; [done..|]. by rewrite app_nil_r. }
  destruct (Hok b) as ([data Hb] & Hdl & Hopen); [by left|].
  destruct (download_body_ok d b data w Hb Hdl Hopen) as (w1 & Hrun1 & Hc1 & Hd1 & Hf1 & Hcs1).
  destruct (IH w1) as (w' & Hrun & Hc & Hd & Hf & Hcs).
  { intros b' Hb'. destruct (Hok b') as (? & ? & Ho); [by right|].
    rewrite Hc1. split_and!; [done..|]. unfold can_open_wb in *. by rewrite Hd1. }
  exists w'. rewrite (for_each_continue _ _ _ _ _ Hrun1).
  split_and!; [done|congruence|congruence| |].
  - rewrite Hf, Hc1, Hf1. unfold download_writes. simpl. by rewrite Hb.
  - rewrite Hcs, Hcs1. simpl. by rewrite <- app_assoc.
Qed.

(** Whatever fails, the loop sends download calls only, each for a blob of
    its list, and leaves the container as it was. *)
Lemma download_body_safe (d b : string) (w : world) :
  container (download_tree_media_body svc d b w).2 = container w ∧
  (calls (download_tree_media_body svc d b w).2 = calls w ∨
   calls (download_tree_media_body svc d b w).2 = calls w ++ [BlobDownload b]).
Proof.
  unfold download_tree_media_body, io_bind, print, open_wb, download_blob, write_file.
  simpl. repeat case_bool_decide; simpl; auto.
  destruct (Py.endswith_char _ _); simpl; auto.
  destruct (download_fails svc b); simpl; auto.
  destruct (container w !! b); simpl; auto.
Qed.

Lemma download_loop_safe (d : string) (l : list string) (w : world) :
  container (for_each l (download_tree_media_body svc d) w).2 = container w ∧
  ∃ new, calls (for_each l (download_tree_media_body svc d) w).2 = calls w ++ new ∧
         ∀ c, c ∈ new → ∃ b, b ∈ l ∧ c = BlobDownload b.
Proof.
  revert w. induction l as [|b l IH]; intros w.
  { split; [done|]. exists []. simpl. rewrite app_nil_r. split; [done|].
    by intros c ?%elem_of_nil. }
  rewrite for_each_cons.
  destruct (download_body_safe d b w) as [Hc Hcs].
  destruct (download_tree_media_body svc d b w) as [[[]|e] w1]; simpl in Hc, Hcs.
  - destruct (IH w1) as (Hc' & new & Hcs' & Hnew). split; [congruence|].
    destruct Hcs as [Hcs|Hcs]; rewrite Hcs', Hcs.
    + exists new. split; [done|]. intros c Hin.
      destruct (Hnew c Hin) as (b' & ? & ->). exists b'. split; [by right|done].
    + exists (BlobDownload b :: new). split; [by rewrite <- app_assoc|].
      intros c [->|Hin]%elem_of_cons.
      * exists b. split; [by left|done].
      * destruct (Hnew c Hin) as (b' & ? & ->). exists b'. split; [by right|done].
  - simpl. split; [done|]. destruct Hcs as [Hcs|Hcs]; rewrite Hcs.
    + exists []. rewrite app_nil_r. split; [done|]. by intros c ?%elem_of_nil.
    + exists [BlobDownload b]. split; [done|].
      intros c ->%list_elem_of_singleton. exists b. split; [by left|done].
Qed.

End Download.

(** C8.  Whatever fails, the download step leaves the container as it was
    and every call it sends is a download of an object whose name starts
    with "tree-pictures/".  When the destination is a usable directory path,
    no download fails and every blob of the target folder has a base
    filename at which a file can be written, the step returns normally; the
    destination directory exists afterwards; the step has sent one download
    call for each object of the target folder; each downloaded object was
    written under its base filename in the destination directory (a later
    object replacing an earlier one of the same base filename), so that a
    base filename used by one object only holds that object's bytes; and no
    other local file changed. *)
Theorem download_tree_media_retrieves_tree_folder (svc : service) (local_dir : string)
    (w : world) :
  let blobs := inside_tree_folder (sorted_names (dom (container w))) in
  (∀ b, b ∈ blobs ↔ b ∈ dom (container w) ∧ Py.startswith b TREE_FOLDER = true) ∧
  (container (download_tree_media svc local_dir w).2 = container w ∧
   ∃ new, calls (download_tree_media svc local_dir w).2 = calls w ++ new ∧
          ∀ c, c ∈ new → ∃ b, b ∈ blobs ∧ c = BlobDownload b) ∧
  (local_dir ≠ "" → local_dir ∉ dom (files w) →
   (∀ b, b ∈ blobs → download_fails svc b = false ∧ Py.basename b ≠ "" ∧
                     Py.join local_dir (Py.basename b) ∉ dirs w) →
   ∃ w', download_tree_media svc local_dir w = (Ret tt, w') ∧
         local_dir ∈ dirs w' ∧
         calls w' = calls w ++ (BlobDownload <$> blobs) ∧
         files w' = apply_writes (download_writes local_dir (container w) blobs) (files w) ∧
         (∀ b, b ∈ blobs →
               (∀ b', b' ∈ blobs →
                      Py.join local_dir (Py.basename b') = Py.join local_dir (Py.basename b) →
                      b' = b) →
               files w' !! Py.join local_dir (Py.basename b) = container w !! b) ∧
         (∀ p, (∀ b, b ∈ blobs → p ≠ Py.join local_dir (Py.basename b)) →
               files w' !! p = files w !! p)).
Proof.
  intros blobs. split; [|split].
  { intros b. unfold blobs. rewrite elem_of_inside_tree_folder, elem_of_sorted_names. tauto. }
  { unfold download_tree_media, io_bind, os_makedirs, list_blobs, print.
    repeat case_bool_decide; simpl;
      try (split; [done|]; exists []; rewrite app_nil_r; split; [done|];
           by intros c ?%elem_of_nil).
    fold blobs.
    match goal with |- context [for_each blobs _ ?w1] =>
      destruct (download_loop_safe svc local_dir blobs w1) as (Hc & new & Hcs & Hnew);
      destruct (for_each blobs (download_tree_media_body svc local_dir) w1)
        as [[[]|e] w2] end; simpl in *; eauto. }
  intros Hne Hnf Hok.
  set (w1 := add_stdout ("Found " +:+ pretty (length blobs) +:+ " files in " +:+ TREE_FOLDER)
               (set_dirs (union {[ local_dir ]}) w)).
  assert (∀ b, b ∈ blobs → is_Some (container w !! b)) as Hin.
  { intros b [Hb _]%elem_of_inside_tree_folder.
    by apply elem_of_dom, elem_of_sorted_names. }
  destruct (download_loop svc local_dir blobs w1) as (w' & Hrun & Hc & Hd & Hf & Hcs).
  { intros b Hb. destruct (Hok b Hb) as (Hdl & Hbase & Hdir).
    split_and!; [by apply Hin|done|].
    destruct (can_open_wb_join local_dir b w Hne Hbase Hdir) as (Hned & ? & ? & ?).
    split_and!; [done| |done]. simpl. set_unfold. tauto. }
  exists (add_stdout "Download complete." w').
  assert (download_tree_media svc local_dir w = (Ret tt, add_stdout "Download complete." w'))
    as ->.
  { unfold download_tree_media, io_bind, os_makedirs, list_blobs, print.
    rewrite bool_decide_eq_false_2 by done.
    rewrite bool_decide_eq_false_2 by done. simpl.
    fold blobs. fold w1. by rewrite Hrun. }
  simpl. rewrite Hd, Hf, Hcs. simpl.
  split_and!; [done| set_unfold; tauto |done| done | |].
  - intros b Hb Huniq. destruct (Hin b Hb) as [data Hdata]. rewrite Hdata.
    apply lookup_apply_writes_unique.
    + unfold download_writes. apply list_elem_of_omap. exists b. split; [done|].
      by rewrite Hdata.
    + intros v' Hv'. unfold download_writes in Hv'.
      apply list_elem_of_omap in Hv' as (b' & Hb' & Heq).
      destruct (container w !! b') as [data'|] eqn:Hd'; simplify_eq/=.
      match goal with H : Py.join _ _ = Py.join _ _ |- _ => apply Huniq in H; [|done] end.
      congruence.
  - intros p Hp. apply lookup_apply_writes_other.
    intros Hin'. apply list_elem_of_fmap in Hin' as ([p' v] & -> & Hpv).
    unfold download_writes in Hpv. apply list_elem_of_omap in Hpv as (b & Hb & Heq).
    destruct (container w !! b); simplify_eq/=. by apply (Hp b).
Qed.

(** *** [is_video] *)

Lemma rfind_append (s t : string) (c : ascii) :
  Py.rfind (s +:+ t) c =
  if 0 <=? Py.rfind t c then Py.len s + Py.rfind t c else Py.rfind s c.
Proof.
  unfold Py.len. induction s as [|a r IH].
  - change ("" +:+ t) with t. pose proof (rfind_bounds t c).
    destruct (Z.leb_spec 0 (Py.rfind t c)); simpl; lia.
  - rewrite append_cons, !rfind_cons, IH. simpl String.length.
    destruct (Z.leb_spec 0 (Py.rfind t c)); [|done].
    destruct (Z.leb_spec 0 (Z.of_nat (String.length r) + Py.rfind t c)); lia.
Qed.

Lemma take_drop_nat (n : nat) (s : string) : Py.take_nat n s +:+ Py.drop_nat n s = s.
Proof.
  revert s. induction n as [|n IH]; intros [|a r]; try done.
  simpl. by rewrite append_cons, IH.
Qed.

Lemma take_nat_append (s t : string) : Py.take_nat (String.length s) (s +:+ t) = s.
Proof. induction s as [|a r IH]; [by destruct t|]. rewrite append_cons. simpl. by rewrite IH. Qed.

Lemma drop_nat_append (s t : string) : Py.drop_nat (String.length s) (s +:+ t) = t.
Proof. induction s as [|a r IH]; [done|]. by rewrite append_cons. Qed.

Lemma slice_to_from (s : string) (i : Z) : Py.slice_to s i +:+ Py.slice_from s i = s.
Proof. apply take_drop_nat. Qed.

Lemma lower_cons (a : ascii) (r : string) :
  Py.lower (String a r) = String (Py.lower_char a) (Py.lower r).
Proof. reflexivity. Qed.

(** Lower-casing neither creates nor removes a dot or a separator. *)
Lemma lower_char_eqb_dot (x : ascii) : Ascii.eqb (Py.lower_char x) "." = Ascii.eqb x ".".
Proof. by destruct x as [[] [] [] [] [] [] [] []]. Qed.

Lemma lower_char_eqb_sep (x : ascii) : Ascii.eqb (Py.lower_char x) "/" = Ascii.eqb x "/".
Proof. by destruct x as [[] [] [] [] [] [] [] []]. Qed.

Lemma rfind_lower (s : string) (c : ascii) :
  (∀ x, Ascii.eqb (Py.lower_char x) c = Ascii.eqb x c) →
  Py.rfind (Py.lower s) c = Py.rfind s c.
Proof.
  intros Hc. induction s as [|a r IH]; [done|].
  by rewrite lower_cons, !rfind_cons, IH, Hc.
Qed.

(** A video extension is a dot followed by characters that are neither a
    dot nor a separator. *)
Lemma video_extension_shape (ext : string) :
  Py.lower ext ∈ VIDEO_EXTENSIONS → Py.rfind ext "." = 0 ∧ Py.rfind ext "/" = -1.
Proof.
  intros Hin.
  rewrite <- (rfind_lower ext ".") by apply lower_char_eqb_dot.
  rewrite <- (rfind_lower ext "/") by apply lower_char_eqb_sep.
  unfold VIDEO_EXTENSIONS in Hin.
  repeat (apply elem_of_union in Hin as [Hin|Hin]);
    apply elem_of_singleton in Hin; by rewrite Hin.
Qed.

Lemma splitext_video (stem ext : string) :
  Py.lower ext ∈ VIDEO_EXTENSIONS →
  Py.splitext (stem +:+ ext) =
    if Py.has_non_dot (Py.basename stem) then (stem, ext) else (stem +:+ ext, "").
Proof.
  intros Hext. destruct (video_extension_shape ext Hext) as [Hdot Hsep].
  assert (Py.rfind (stem +:+ ext) "." = Py.len stem) as Hd.
  { rewrite rfind_append, Hdot. change (0 <=? 0) with true. cbv iota. lia. }
  assert (Py.rfind (stem +:+ ext) "/" = Py.rfind stem "/") as Hs.
  { by rewrite rfind_append, Hsep. }
  unfold Py.splitext. rewrite Hd, Hs.
  pose proof (rfind_bounds stem "/") as Hb. cbv zeta.
  replace (Py.rfind stem "/" <? Py.len stem) with true by (symmetry; apply Z.ltb_lt; lia).
  unfold Py.slice, Py.slice_to, Py.slice_from, Py.len. rewrite Nat2Z.id.
  rewrite take_nat_append, drop_nat_append. simpl andb.
  unfold Py.basename, Py.slice_from. by destruct (Py.has_non_dot _).
Qed.

Lemma is_video_splitext (name : string) :
  is_video name = true ↔ Py.lower (Py.splitext name).2 ∈ VIDEO_EXTENSIONS.
Proof. unfold is_video. apply bool_decide_eq_true. Qed.

Lemma empty_not_video_extension : Py.lower "" ∉ VIDEO_EXTENSIONS.
Proof. apply (bool_decide_eq_false_1 (Py.lower "" ∈ VIDEO_EXTENSIONS)). by vm_compute. Qed.

(** C9.  [is_video name] holds exactly when the extension of [name], as
    [os.path.splitext] gives it, is in lower case one of .mp4, .mov, .avi,
    .mkv, .webm; that is, when [name] ends with one of these in any mix of
    cases and the base filename before that ending has a character other
    than a dot.  In particular "clip.MP4" is a video and "photo.jpg" is
    not. *)
Theorem is_video_iff_video_extension (name : string) :
  (is_video name = true ↔ Py.lower (Py.splitext name).2 ∈ VIDEO_EXTENSIONS) ∧
  (is_video name = true ↔
     ∃ stem ext, name = stem +:+ ext ∧ Py.lower ext ∈ VIDEO_EXTENSIONS ∧
                 Py.has_non_dot (Py.basename stem) = true) ∧
  is_video "clip.MP4" = true ∧ is_video "photo.jpg" = false.
Proof.
  split_and!; [apply is_video_splitext| |by vm_compute..].
  rewrite is_video_splitext. split.
  - intros Hin. unfold Py.splitext in Hin.
    set (sep := Py.rfind name "/") in *. set (dot := Py.rfind name ".") in *.
    destruct ((sep <? dot) && Py.has_non_dot (Py.slice name (sep + 1) dot)) eqn:Hc.
    2:{ exfalso. by apply empty_not_video_extension. }
    simpl in Hin. apply andb_true_iff in Hc as [_ Hnd].
    exists (Py.slice_to name dot), (Py.slice_from name dot).
    split_and!; [by rewrite slice_to_from|done|].
    destruct (video_extension_shape _ Hin) as [_ Hsep].
    assert (Py.rfind (Py.slice_to name dot) "/" = sep) as Hs.
    { unfold sep. rewrite <- (slice_to_from name dot) at 2.
      by rewrite rfind_append, Hsep. }
    unfold Py.basename. by rewrite Hs.
  - intros (stem & ext & -> & Hext & Hnd).
    by rewrite splitext_video, Hnd.
Qed.

(** *** Claims on the move *)

(** C3 (amended).  A listed blob is in exactly one of the two partitions,
    by whether its name starts with "tree-pictures/".  A move is a copy:
    after it the bytes of the blob are under the new name, which is in the
    target folder, and every other name of the container, the old name of a
    blob outside the folder included, holds what it held before. *)
Theorem move_copies_into_tree_folder (cfg : config) (svc : service) :
  (∀ (names : list string) (name : string), name ∈ names →
     (Py.startswith name TREE_FOLDER = true ∧
      name ∈ inside_tree_folder names ∧ name ∉ outside_tree_folder names) ∨
     (Py.startswith name TREE_FOLDER = false ∧
      name ∈ outside_tree_folder names ∧ name ∉ inside_tree_folder names)) ∧
  (∀ (b : string) (data : bytes) (w : world),
     container w !! b = Some data →
     copy_fails svc (tree_blob_name b) (blob_url cfg b) = false →
     ∃ w', move_blob_to_tree_folder cfg svc b w = (Ret tt, w') ∧
           Py.startswith (tree_blob_name b) TREE_FOLDER = true ∧
           container w' !! tree_blob_name b = Some data ∧
           (∀ k, k ≠ tree_blob_name b → container w' !! k = container w !! k) ∧
           (Py.startswith b TREE_FOLDER = false → container w' !! b = Some data)).
Proof.
  split.
  - intros names name Hin.
    rewrite elem_of_inside_tree_folder, elem_of_outside_tree_folder.
    destruct (Py.startswith name TREE_FOLDER); [left|right];
      (split_and!; [done..|]); by intros [_ ?].
  - intros b data w Hb Hcp. eexists. split; [by apply move_ok|]. simpl.
    split_and!.
    + apply tree_blob_name_inside.
    + apply lookup_insert_eq.
    + intros k Hk. by apply lookup_insert_ne.
    + intros Hout. by rewrite insert_tree_blob_outside.
Qed.

(** C10.  The move sends one copy call whose destination is
    "tree-pictures/" followed by the base filename of the source name.  Two
    sources of the same base filename therefore have the same destination,
    and when both are moved the destination holds the bytes of the one
    moved last. *)
Theorem move_destination_is_basename (cfg : config) (svc : service) :
  (∀ (b : string) (w : world),
     calls (move_blob_to_tree_folder cfg svc b w).2 =
     calls w ++ [BlobCopy (TREE_FOLDER +:+ Py.basename b) (blob_url cfg b)]) ∧
  (∀ b1 b2 : string, Py.basename b1 = Py.basename b2 →
     TREE_FOLDER +:+ Py.basename b1 = TREE_FOLDER +:+ Py.basename b2) ∧
  (∀ (b1 b2 : string) (d1 d2 : bytes) (w : world),
     Py.basename b1 = Py.basename b2 →
     Py.startswith b2 TREE_FOLDER = false →
     container w !! b1 = Some d1 → container w !! b2 = Some d2 →
     copy_fails svc (tree_blob_name b1) (blob_url cfg b1) = false →
     copy_fails svc (tree_blob_name b2) (blob_url cfg b2) = false →
     ∃ w1 w2,
       move_blob_to_tree_folder cfg svc b1 w = (Ret tt, w1) ∧
       container w1 !! (TREE_FOLDER +:+ Py.basename b1) = Some d1 ∧
       move_blob_to_tree_folder cfg svc b2 w1 = (Ret tt, w2) ∧
       container w2 !! (TREE_FOLDER +:+ Py.basename b1) = Some d2).
Proof.
  split_and!.
  - intros b w. apply move_calls.
  - by intros b1 b2 ->.
  - intros b1 b2 d1 d2 w Hbase Hout Hb1 Hb2 Hcp1 Hcp2.
    eexists _, _. split; [by apply move_ok|].
    split; [apply lookup_insert_eq|].
    split.
    + apply move_ok; [|done]. simpl. by rewrite insert_tree_blob_outside.
    + simpl. unfold tree_blob_name. rewrite Hbase. apply lookup_insert_eq.
Qed.

(** *** Claims on failures *)

Lemma for_each_app {A} (l1 l2 : list A) (body : A → io unit) (w : world) :
  for_each (l1 ++ l2) body w =
  match for_each l1 body w with
  | (Ret _, w1) => for_each l2 body w1
  | (Raise e, w1) => (Raise e, w1)
  end.
Proof.
  revert w. induction l1 as [|x l1 IH]; intros w; [done|].
  rewrite <- app_comm_cons, !for_each_cons.
  destruct (body x w) as [[[]|e] w1]; [apply IH|done].
Qed.

Lemma for_each_abort {A} (l1 l2 : list A) (x : A) (body : A → io unit)
    (w0 w w' : world) e :
  for_each l1 body w0 = (Ret tt, w) → body x w = (Raise e, w') →
  for_each (l1 ++ x :: l2) body w0 = (Raise e, w').
Proof. intros H1 Hx. rewrite for_each_app, H1. by apply for_each_raise. Qed.

(** C2 (amended).  The classifier call is the only wrapped one: a blob whose
    classification raises is not moved and the loop continues with the next
    blob.  A failing storage call (upload, delete, download, copy) is not
    wrapped: the exception leaves the loop at that item after one attempt,
    the items after it are not processed, and what the items before it did
    stays done. *)
Theorem storage_failure_aborts_classifier_failure_skips (cfg : config) (svc : service) :
  (∀ keywords b data rest w,
     is_video b = false → container w !! b = Some data →
     download_fails svc b = false → temp_path_of b ∉ dirs w →
     vision_result svc data = None →
     ∃ w', for_each (b :: rest) (analyze_and_move_body cfg svc keywords) w =
             for_each rest (analyze_and_move_body cfg svc keywords) w' ∧
           container w' = container w ∧
           calls w' = calls w ++
             BlobDownload b :: replicate (length keywords) (VisionAnalyze data)) ∧
  (∀ d done n rest data w0 w,
     for_each done (upload_local_images_body svc d) w0 = (Ret tt, w) →
     is_video n = false → files w !! Py.join d n = Some data →
     upload_fails svc n = true →
     ∃ e w', for_each (done ++ n :: rest) (upload_local_images_body svc d) w0 = (Raise e, w') ∧
             container w' = container w ∧ calls w' = calls w ++ [BlobUpload n data]) ∧
  (∀ done b rest w0 w,
     for_each done (clean_blob_storage_body svc) w0 = (Ret tt, w) →
     Py.startswith b TREE_FOLDER = false → delete_fails svc b = true →
     ∃ e w', for_each (done ++ b :: rest) (clean_blob_storage_body svc) w0 = (Raise e, w') ∧
             container w' = container w ∧ calls w' = calls w ++ [BlobDelete b]) ∧
  (∀ keywords done b rest w0 w,
     for_each done (analyze_and_move_body cfg svc keywords) w0 = (Ret tt, w) →
     is_video b = false → temp_path_of b ∉ dirs w → download_fails svc b = true →
     ∃ e w', for_each (done ++ b :: rest) (analyze_and_move_body cfg svc keywords) w0 =
               (Raise e, w') ∧
             container w' = container w ∧ calls w' = calls w ++ [BlobDownload b]) ∧
  (∀ keywords done b data rest w0 w,
     for_each done (analyze_and_move_body cfg svc keywords) w0 = (Ret tt, w) →
     is_video b = false → container w !! b = Some data →
     download_fails svc b = false → temp_path_of b ∉ dirs w →
     blob_matches svc keywords data = true →
     copy_fails svc (tree_blob_name b) (blob_url cfg b) = true →
     ∃ e w', for_each (done ++ b :: rest) (analyze_and_move_body cfg svc keywords) w0 =
               (Raise e, w') ∧
             container w' = container w ∧
             calls w' = calls w ++ [BlobDownload b; VisionAnalyze data;
                                    BlobCopy (tree_blob_name b) (blob_url cfg b)]) ∧
  (∀ d done b rest w0 w,
     for_each done (download_tree_media_body svc d) w0 = (Ret tt, w) →
     can_open_wb w (Py.join d (Py.basename b)) → download_fails svc b = true →
     ∃ e w', for_each (done ++ b :: rest) (download_tree_media_body svc d) w0 = (Raise e, w') ∧
             container w' = container w ∧ calls w' = calls w ++ [BlobDownload b]).
Proof.
  split_and!.
  - intros keywords b data rest w Hv Hb Hdl Hdir Hvis.
    destruct (analyze_body_classifier_fails cfg svc keywords b data w)
      as (w' & Hrun & Hc & _ & Hcs); [done..|].
    exists w'. by rewrite (for_each_continue _ _ _ _ _ Hrun).
  - intros d done n rest data w0 w Hdone Hv Hf Hup.
    eexists _, _. split.
    + eapply for_each_abort; [done|]. by apply upload_body_upload_fails.
    + done.
  - intros done b rest w0 w Hdone Hb Hdel.
    eexists _, _. split.
    + eapply for_each_abort; [done|]. by apply clean_body_delete_fails.
    + done.
  - intros keywords done b rest w0 w Hdone Hv Hdir Hdl.
    eexists _, _. split.
    + eapply for_each_abort; [done|]. by apply analyze_body_download_fails.
    + done.
  - intros keywords done b data rest w0 w Hdone Hv Hb Hdl Hdir Hm Hcp.
    destruct (analyze_body_copy_fails cfg svc keywords b data w)
      as (w' & Hrun & _ & Hc & Hcs); [done..|].
    eexists _, w'. split; [|done]. by eapply for_each_abort.
  - intros d done b rest w0 w Hdone Hopen Hdl.
    destruct (download_body_download_fails svc d b w) as (w' & Hrun & Hc & _ & Hcs); [done..|].
    eexists _, w'. split; [|done]. by eapply for_each_abort.
Qed.

(** *** Which blobs the step moves *)

Lemma contains_cons (a : ascii) (r t : string) :
  Py.contains (String a r) t = Py.startswith (String a r) t || Py.contains r t.
Proof. reflexivity. Qed.

(** [t in s] is the substring test. *)
Lemma contains_spec (s t : string) :
  Py.contains s t = true ↔ ∃ pre post, s = pre +:+ t +:+ post.
Proof.
  split.
  - induction s as [|a r IH].
    + unfold Py.contains. rewrite orb_false_r. intros [post Hs]%startswith_spec.
      exists "", post. done.
    + rewrite contains_cons. intros [H|H]%orb_true_iff.
      * apply startswith_spec in H as [post ->]. by exists "", post.
      * destruct (IH H) as (pre & post & ->). by exists (String a pre), post.
  - intros (pre & post & ->). induction pre as [|a pre IH].
    + change ("" +:+ t +:+ post) with (t +:+ post).
      destruct (t +:+ post) eqn:E.
      * unfold Py.contains. rewrite orb_false_r. rewrite <- E. apply startswith_append.
      * rewrite contains_cons, <- E, startswith_append. done.
    + rewrite append_cons, contains_cons, IH. apply orb_true_r.
Qed.

Lemma lower_char_idem (x : ascii) : Py.lower_char (Py.lower_char x) = Py.lower_char x.
Proof. by destruct x as [[] [] [] [] [] [] [] []]. Qed.

Lemma lower_idem (s : string) : Py.lower (Py.lower s) = Py.lower s.
Proof.
  induction s as [|a r IH]; [done|]. by rewrite !lower_cons, lower_char_idem, IH.
Qed.

Lemma tags_of_lower (svc : service) (data : bytes) (tag : string) :
  tag ∈ tags_of svc data → Py.lower tag = tag.
Proof.
  unfold tags_of. destruct (vision_result svc data) as [a|].
  - intros (t & -> & _)%list_elem_of_fmap. apply lower_idem.
  - by intros ?%elem_of_nil.
Qed.

(** The loop finds a blob when some keyword, as it was given, occurs in
    some tag the classifier returned. *)
Lemma blob_matches_iff (svc : service) (keywords : list string) (data : bytes) :
  blob_matches svc keywords data = true ↔
  ∃ kw tag, kw ∈ keywords ∧ tag ∈ tags_of svc data ∧ Py.contains tag kw = true.
Proof.
  unfold blob_matches, tags_match, any_keyword_in_tags.
  rewrite !andb_true_iff, !negb_true_iff, !bool_decide_eq_false, existsb_exists.
  split.
  - intros (_ & _ & tag & Htag%list_elem_of_In & Hkw).
    apply existsb_exists in Hkw as (kw & Hkw%list_elem_of_In & Hc).
    exists kw, tag. rewrite (tags_of_lower svc data tag Htag) in Hc. done.
  - intros (kw & tag & Hkw & Htag & Hc). split_and!.
    + intros ->. by apply elem_of_nil in Hkw.
    + intros E. rewrite E in Htag. by apply elem_of_nil in Htag.
    + exists tag. split; [by apply list_elem_of_In|].
      apply existsb_exists. exists kw. split; [by apply list_elem_of_In|].
      by rewrite (tags_of_lower svc data tag Htag).
Qed.

Lemma copy_in_analyze_calls (cfg : config) (svc : service) (keywords : list string)
    (b : string) (data : bytes) (dst url : string) :
  BlobCopy dst url ∈ analyze_calls cfg svc keywords b data ↔
  blob_matches svc keywords data = true ∧ dst = tree_blob_name b ∧ url = blob_url cfg b.
Proof.
  unfold analyze_calls. destruct (blob_matches svc keywords data).
  - rewrite !elem_of_cons, elem_of_nil. split.
    + intros [?|[?|[E|[]]]]; [done..|]. by injection E as -> ->.
    + intros (_ & -> & ->). auto.
  - rewrite elem_of_cons. split; [|by intros [? _]].
    intros [?|Hin]; [done|]. by apply elem_of_replicate in Hin as [? _].
Qed.

(** X1.  When no download and no copy fails and no directory sits at a
    temporary path, the step returns normally, leaves every blob outside the
    target folder as it was, and sends the copy call of a blob it processes
    (outside the folder, not a video) exactly when some keyword, compared as
    it was given, is a substring of some lower-cased tag the classifier
    returned for the blob. *)
Theorem analyze_and_move_copies_iff (cfg : config) (svc : service)
    (keywords : list string) (w : world) :
  (∀ b, b ∈ dom (container w) → Py.startswith b TREE_FOLDER = false → is_video b = false →
        download_fails svc b = false ∧
        copy_fails svc (tree_blob_name b) (blob_url cfg b) = false ∧
        temp_path_of b ∉ dirs w) →
  ∃ w' new,
    analyze_and_move_blobs cfg svc keywords w = (Ret tt, w') ∧
    calls w' = calls w ++ new ∧
    (∀ k, Py.startswith k TREE_FOLDER = false → container w' !! k = container w !! k) ∧
    ∀ b data, container w !! b = Some data →
      Py.startswith b TREE_FOLDER = false → is_video b = false →
      (BlobCopy (tree_blob_name b) (blob_url cfg b) ∈ new ↔
       ∃ kw tag, kw ∈ keywords ∧ tag ∈ tags_of svc data ∧
                 ∃ pre post, tag = pre +:+ kw +:+ post).
Proof.
  intros Hok.
  destruct (analyze_and_move_blobs_run cfg svc keywords w) as (w' & Hrun & _ & Hc & _ & Hcs).
  { intros b (? & ? & ?)%elem_of_step_blobs. by apply Hok. }
  eexists w', _. split_and!; [done..| |].
  - intros k Hk. rewrite Hc. apply lookup_apply_writes_other.
    intros ([k' v] & -> & Hin)%list_elem_of_fmap.
    apply list_elem_of_omap in Hin as (b & _ & Hb).
    destruct (container w !! b) as [data|]; [|done]. simpl in Hb.
    destruct (blob_matches svc keywords data); [|done].
    injection Hb as <- _. simpl in Hk. by rewrite tree_blob_name_inside in Hk.
  - intros b data Hb Hout Hv.
    transitivity (blob_matches svc keywords data = true).
    + unfold step_calls. rewrite list_elem_of_join. split.
      * intros (cs & Hin & Hcs').
        apply list_elem_of_fmap in Hcs' as (b' & -> & Hb').
        destruct (container w !! b') as [data'|] eqn:Hd'; simpl in Hin;
          [|by apply elem_of_nil in Hin].
        apply copy_in_analyze_calls in Hin as (Hm & _ & Hurl).
        apply blob_url_inj in Hurl as ->. congruence.
      * intros Hm. eexists. split.
        2:{ apply list_elem_of_fmap. exists b. split; [done|].
            apply elem_of_step_blobs. split_and!; [|done..].
            apply elem_of_dom. eauto. }
        rewrite Hb. simpl. by apply copy_in_analyze_calls.
    + rewrite blob_matches_iff. by setoid_rewrite contains_spec.
Qed.

(** *** The classifiers of image_analyzer.py *)

(** The tests [if l and ...] of the classifiers add nothing to the test
    that follows them. *)
Lemma nonempty_and_elem_of (t : string) (l : list string) :
  negb (bool_decide (l = [])) && bool_decide (t ∈ Py.lower <$> l) =
  bool_decide (t ∈ Py.lower <$> l).
Proof.
  destruct l; [|done].
  rewrite (bool_decide_eq_false_2 (t ∈ _)); [done|]. by intros ?%elem_of_nil.
Qed.

Lemma nonempty_and_existsb (f : string → bool) (l : list string) :
  negb (bool_decide (l = [])) && existsb f (Py.lower <$> l) = existsb f (Py.lower <$> l).
Proof. by destruct l. Qed.

(** The URL classifier always returns; its answer is [analysis_has_term] on
    the service's answer and [False] when the service raises; it only
    prints. *)
Lemma analyze_image_run (net : web) (image_url : string) (search_term : option string)
    (w : world) :
  ∃ out,
    analyze_image net image_url search_term w =
    (Ret (from_option
            (λ a, analysis_has_term a (Py.lower (effective_term net search_term)))
            false (vision_url_result net image_url)),
     World (container w) (files w) (dirs w) (stdout w ++ out) (calls w)).
Proof.
  unfold analyze_image, try_except, io_bind, print, vision_analyze_image. cbv zeta.
  destruct (vision_url_result net image_url) as [a|]; simpl.
  2:{ eexists [_; _]. unfold add_stdout. simpl. by rewrite <- app_assoc. }
  rewrite nonempty_and_elem_of, nonempty_and_existsb.
  unfold analysis_has_term.
  repeat match goal with
         | |- context [if ?b then _ else _] => destruct b
         end; simpl; eexists [_; _]; unfold add_stdout; simpl;
    by rewrite <- app_assoc.
Qed.

Lemma analysis_has_term_iff (a : analysis) (t : string) :
  analysis_has_term a t = true ↔
  t ∈ Py.lower <$> a_tags a ∨ t ∈ Py.lower <$> a_objects a ∨
  ∃ caption, caption ∈ a_captions a ∧ ∃ pre post, Py.lower caption = pre +:+ t +:+ post.
Proof.
  unfold analysis_has_term.
  rewrite !orb_true_iff, !bool_decide_eq_true, existsb_exists.
  split.
  - intros [[?|?]|(c & Hc%list_elem_of_In & Hin)]; [auto..|].
    apply list_elem_of_fmap in Hc as (c0 & -> & Hc0).
    right; right. exists c0. split; [done|]. by apply contains_spec.
  - intros [?|[?|(c & Hc & Hin)]]; [auto..|]. right.
    exists (Py.lower c). split; [|by apply contains_spec].
    apply list_elem_of_In, list_elem_of_fmap. eauto.
Qed.

(** X2.  The file classifier returns the same tag list whatever the search
    term is: the term only chooses the line that is printed.  The call
    leaves the container, the local files and the directories as they were
    and sends the same calls for every term. *)
Theorem analyze_image_file_ignores_search_term (svc : service)
    (image_path term1 term2 : string) (w : world) :
  (analyze_image_file svc image_path term1 w).1 =
    (analyze_image_file svc image_path term2 w).1 ∧
  calls (analyze_image_file svc image_path term1 w).2 =
    calls (analyze_image_file svc image_path term2 w).2 ∧
  container (analyze_image_file svc image_path term1 w).2 = container w ∧
  files (analyze_image_file svc image_path term1 w).2 = files w ∧
  dirs (analyze_image_file svc image_path term1 w).2 = dirs w.
Proof.
  destruct (analyze_image_file_run svc image_path term1 w) as [out1 ->].
  destruct (analyze_image_file_run svc image_path term2 w) as [out2 ->].
  done.
Qed.

(** X3.  The URL classifier always returns normally and changes nothing but
    the printed lines.  It answers [True] exactly when the vision service
    answered and the lower-cased search term is one of the lower-cased tags,
    or one of the lower-cased object labels, or a substring of one of the
    lower-cased captions; the term is the one given or, when none or the
    empty one is given, the variable KEYWORD of the environment, "tree" by
    default. *)
Theorem analyze_image_true_iff (net : web) (image_url : string)
    (search_term : option string) (w : world) :
  ∃ (b : bool) (out : list string),
    analyze_image net image_url search_term w =
      (Ret b, World (container w) (files w) (dirs w) (stdout w ++ out) (calls w)) ∧
    (b = true ↔
     ∃ a, vision_url_result net image_url = Some a ∧
          let t := Py.lower (effective_term net search_term) in
          t ∈ Py.lower <$> a_tags a ∨ t ∈ Py.lower <$> a_objects a ∨
          ∃ caption, caption ∈ a_captions a ∧
                     ∃ pre post, Py.lower caption = pre +:+ t +:+ post).
Proof.
  destruct (analyze_image_run net image_url search_term w) as [out ->].
  eexists _, out. split; [done|].
  destruct (vision_url_result net image_url) as [a|]; simpl.
  - rewrite analysis_has_term_iff. split.
    + intros H. by exists a.
    + by intros (a' & [= <-] & H).
  - split; [done|]. by intros (a & ? & _).
Qed.

(** X4.  The URL classifier does not look at the case of the search term:
    two non-empty terms that agree once lower-cased get the same answer. *)
Theorem analyze_image_case_insensitive (net : web) (image_url term1 term2 : string)
    (w : world) :
  term1 ≠ "" → term2 ≠ "" → Py.lower term1 = Py.lower term2 →
  (analyze_image net image_url (Some term1) w).1 =
  (analyze_image net image_url (Some term2) w).1.
Proof.
  intros H1 H2 Hl.
  destruct (analyze_image_run net image_url (Some term1) w) as [out1 ->].
  destruct (analyze_image_run net image_url (Some term2) w) as [out2 ->].
  simpl. unfold effective_term.
  rewrite !bool_decide_eq_false_2 by done. by rewrite Hl.
Qed.

(** *** [test_vision_api] and the main block of image_analyzer.py *)

Lemma test_vision_api_run (net : web) (w : world) :
  ∃ out,
    test_vision_api net w =
    (Ret true, World (container w) (files w) (dirs w) (stdout w ++ out) (calls w)).
Proof.
  unfold test_vision_api, try_except. unfold io_bind at 1. unfold print at 1.
  unfold io_bind at 1.
  destruct (analyze_image_run net (sample_image_url) (Some "laptop")
              (add_stdout "Testing Azure Computer Vision API with a sample image..." w))
    as [out ->].
  unfold io_bind, print, io_ret, add_stdout. simpl.
  destruct (from_option _ _ _); simpl; eexists (_ :: out ++ [_]);
    by rewrite <- !app_assoc.
Qed.

(** X7.  [test_vision_api] returns [True] on every run and never raises:
    its handler for a failed test cannot be reached, because the classifier
    it calls catches every exception itself.  When the vision service
    raises, the test prints the classifier's error line followed by the
    line for an image without the expected content. *)
Theorem test_vision_api_always_true (net : web) (w : world) :
  (∃ out, test_vision_api net w =
            (Ret true, World (container w) (files w) (dirs w) (stdout w ++ out) (calls w))) ∧
  (vision_url_result net sample_image_url = None →
   stdout (test_vision_api net w).2 =
     stdout w ++
     ["Testing Azure Computer Vision API with a sample image...";
      "Analyzing image: " +:+ sample_image_url;
      "Error analyzing image " +:+ sample_image_url +:+ ": " +:+
        exn_str (HttpResponseError "analyze_image" sample_image_url);
      "API test completed, but the sample image doesn't contain the expected content."]).
Proof.
  split; [apply test_vision_api_run|].
  intros Hdown.
  unfold test_vision_api, try_except, io_bind, print, analyze_image, try_except,
    vision_analyze_image, io_bind, print, io_ret. simpl.
  rewrite Hdown. simpl. by rewrite <- !app_assoc.
Qed.

(** X8.  The main block of image_analyzer.py always returns normally and
    always ends with the four lines that say the API is working, whatever
    the vision service answered and also when it raised; it changes nothing
    but the printed lines. *)
Theorem analyzer_main_always_reports_success (net : web) (w : world) :
  ∃ out,
    analyzer_main net w =
    (Ret tt,
     World (container w) (files w) (dirs w)
       (stdout w ++
        ["Azure Computer Vision Image Analyzer"; "===================================="] ++
        out ++
        [NL +:+ "API is working correctly! You can now use this tool to analyze images.";
         "Usage examples:";
         "  python image_analyzer.py analyze https://example.com/image.jpg jeans";
         "  python image_analyzer.py download https://example.com/image.jpg ./downloads image.jpg"])
       (calls w)).
Proof.
  unfold analyzer_main. unfold io_bind at 1. unfold print at 1.
  unfold io_bind at 1. unfold print at 1. unfold io_bind at 1.
  destruct (test_vision_api_run net
              (add_stdout "===================================="
                 (add_stdout "Azure Computer Vision Image Analyzer" w))) as [out ->].
  exists out. unfold io_bind, print, add_stdout. simpl.
  by rewrite <- !app_assoc.
Qed.

(** *** [download_image] *)









(** *** The steps one after the other *)

Lemma clean_blob_storage_run (svc : service) (w : world) :
  (∀ k, k ∈ dom (container w) → Py.startswith k TREE_FOLDER = false →
        delete_fails svc k = false) →
  ∃ w', clean_blob_storage svc w = (Ret tt, w') ∧
        (∀ k, container w' !! k =
              if Py.startswith k TREE_FOLDER then container w !! k else None) ∧
        calls w' = calls w ++
          (BlobDelete <$> outside_tree_folder (sorted_names (dom (container w)))) ∧
        files w' = files w ∧ dirs w' = dirs w.
Proof.
  intros Hok.
  destruct (clean_loop svc (sorted_names (dom (container w))) w)
    as (w' & Hrun & Hc & Hcalls & Hf & Hd).
  { apply NoDup_sorted_names. }
  { intros k Hk. by apply elem_of_dom, elem_of_sorted_names. }
  { intros k Hk. apply Hok. by apply elem_of_sorted_names. }
  exists (add_stdout "Blob container cleaned. Only tree-pictures/ folder remains." w').
  unfold clean_blob_storage, io_bind, list_blobs, print. rewrite Hrun. simpl.
  split_and!; [done| |done..].
  intros k. rewrite Hc.
  destruct (Py.startswith k TREE_FOLDER) eqn:Hpre.
  - case_decide as Hk; [|done].
    apply elem_of_outside_tree_folder in Hk as [_ Hk]. congruence.
  - case_decide as Hk; [done|].
    destruct (container w !! k) eqn:Hlk; [|done].
    exfalso. apply Hk, elem_of_outside_tree_folder. split; [|done].
    apply elem_of_sorted_names, elem_of_dom. eauto.
Qed.

(** A container whose blobs are all in the target folder lists nothing
    outside it. *)
Lemma outside_tree_folder_nil (c : gmap string bytes) :
  (∀ k, k ∈ dom c → Py.startswith k TREE_FOLDER = true) →
  outside_tree_folder (sorted_names (dom c)) = [].
Proof.
  intros Hall.
  assert (∀ l : list string, (∀ k, k ∈ l → Py.startswith k TREE_FOLDER = true) →
            outside_tree_folder l = []) as Hnil.
  { unfold outside_tree_folder. induction l as [|x l IH]; intros Hl; [done|].
    rewrite filter_cons_False.
    - apply IH. intros k Hk. apply Hl. by right.
    - rewrite Hl by by left. done. }
  apply Hnil. intros k Hk. by apply Hall, elem_of_sorted_names.
Qed.

(** X9.  Cleaning twice is cleaning once: when no deletion fails, a second
    run of the clean step directly after the first sends no call and leaves
    the container as the first run left it. *)
Theorem clean_blob_storage_idempotent (svc : service) (w : world) :
  (∀ k, k ∈ dom (container w) → Py.startswith k TREE_FOLDER = false →
        delete_fails svc k = false) →
  ∃ w1 w2, clean_blob_storage svc w = (Ret tt, w1) ∧
           clean_blob_storage svc w1 = (Ret tt, w2) ∧
           container w2 = container w1 ∧ calls w2 = calls w1.
Proof.
  intros Hok.
  destruct (clean_blob_storage_run svc w Hok) as (w1 & Hrun1 & Hc1 & _).
  assert (∀ k, k ∈ dom (container w1) → Py.startswith k TREE_FOLDER = true) as Hin1.
  { intros k [v Hk]%elem_of_dom. rewrite Hc1 in Hk.
    by destruct (Py.startswith k TREE_FOLDER). }
  destruct (clean_blob_storage_run svc w1) as (w2 & Hrun2 & Hc2 & Hcs2 & _).
  { intros k Hk Hout. rewrite (Hin1 k Hk) in Hout. done. }
  exists w1, w2. split_and!; [done..| |].
  - apply map_eq. intros k. rewrite Hc2.
    destruct (Py.startswith k TREE_FOLDER) eqn:Hpre; [done|].
    destruct (container w1 !! k) eqn:Hk; [|done].
    assert (k ∈ dom (container w1)) as Hd by (apply elem_of_dom; eauto).
    rewrite (Hin1 k Hd) in Hpre. done.
  - rewrite Hcs2, (outside_tree_folder_nil (container w1) Hin1). simpl.
    by rewrite app_nil_r.
Qed.

(** X10.  The clean step runs before the analyze step: when no deletion
    fails, the analyze step that follows it finds no blob outside the
    target folder and does nothing at all, whatever the keywords are. *)
Theorem analyze_after_clean_does_nothing (cfg : config) (svc : service) (w : world) :
  (∀ k, k ∈ dom (container w) → Py.startswith k TREE_FOLDER = false →
        delete_fails svc k = false) →
  ∃ w1, clean_blob_storage svc w = (Ret tt, w1) ∧
        ∀ keywords, analyze_and_move_blobs cfg svc keywords w1 = (Ret tt, w1).
Proof.
  intros Hok.
  destruct (clean_blob_storage_run svc w Hok) as (w1 & Hrun1 & Hc1 & _).
  exists w1. split; [done|]. intros keywords.
  unfold analyze_and_move_blobs, io_bind, list_blobs.
  rewrite outside_tree_folder_nil; [done|].
  intros k [v Hk]%elem_of_dom. rewrite Hc1 in Hk.
  by destruct (Py.startswith k TREE_FOLDER).
Qed.

Lemma upload_local_images_run (svc : service) (local_dir : string) (w : world) :
  local_dir ∈ dirs w →
  (∀ n, n ∈ dir_entries w local_dir → upload_fails svc n = false) →
  ∃ w', upload_local_images svc local_dir w = (Ret tt, w') ∧
        files w' = files w ∧ dirs w' = dirs w ∧
        calls w' = calls w ++ uploads (files w) local_dir (dir_entries w local_dir) ∧
        ∀ n, container w' !! n =
             if decide (n ∈ dir_entries w local_dir ∧ is_video n = false ∧
                        is_Some (files w !! Py.join local_dir n))
             then files w !! Py.join local_dir n
             else container w !! n.
Proof.
  intros Hd Hok.
  destruct (upload_loop svc local_dir _ w Hok) as (w' & Hrun & Hrest).
  exists w'. split; [|done]. unfold upload_local_images, io_bind, os_listdir.
  rewrite bool_decide_eq_true_2 by done. by rewrite Hrun.
Qed.

Lemma elem_of_uploads (fs : gmap string bytes) (d : string) (l : list string) (c : call) :
  c ∈ uploads fs d l ↔
  ∃ n data, c = BlobUpload n data ∧ n ∈ l ∧ is_video n = false ∧
            fs !! Py.join d n = Some data.
Proof.
  unfold uploads. rewrite list_elem_of_omap. split.
  - intros (n & Hn & Hc). destruct (is_video n) eqn:Hv; [done|].
    destruct (fs !! Py.join d n) as [data|] eqn:Hf; [|done].
    injection Hc as <-. by exists n, data.
  - intros (n & data & -> & Hn & Hv & Hf). exists n. split; [done|].
    by rewrite Hv, Hf.
Qed.

(** A name of the target folder holds a separator; a directory entry holds
    none. *)
Lemma inside_has_sep (k : string) :
  Py.startswith k TREE_FOLDER = true → 0 ≤ Py.rfind k "/".
Proof.
  intros [r ->]%startswith_spec. rewrite rfind_append.
  pose proof (rfind_bounds r "/").
  destruct (Z.leb_spec 0 (Py.rfind r "/")).
  - unfold Py.len. lia.
  - by vm_compute.
Qed.

Lemma dir_entries_outside (w : world) (d n : string) :
  n ∈ dir_entries w d → Py.startswith n TREE_FOLDER = false.
Proof.
  unfold dir_entries. intros (p & -> & _)%list_elem_of_fmap.
  destruct (Py.startswith (Py.basename p) TREE_FOLDER) eqn:E; [|done].
  apply inside_has_sep in E. rewrite basename_no_sep in E. lia.
Qed.

(** X16.  Uploading the same directory twice is uploading it once: when
    the directory exists and no upload fails, a second run of the upload
    step leaves the container as the first run left it. *)
Theorem upload_local_images_idempotent (svc : service) (local_dir : string) (w : world) :
  local_dir ∈ dirs w →
  (∀ n, n ∈ dir_entries w local_dir → upload_fails svc n = false) →
  ∃ w1 w2, upload_local_images svc local_dir w = (Ret tt, w1) ∧
           upload_local_images svc local_dir w1 = (Ret tt, w2) ∧
           container w2 = container w1.
Proof.
  intros Hd Hok.
  destruct (upload_local_images_run svc local_dir w Hd Hok)
    as (w1 & Hrun1 & Hf1 & Hd1 & _ & Hc1).
  assert (dir_entries w1 local_dir = dir_entries w local_dir) as He.
  { unfold dir_entries. by rewrite Hf1, Hd1. }
  destruct (upload_local_images_run svc local_dir w1) as (w2 & Hrun2 & _ & _ & _ & Hc2).
  { by rewrite Hd1. }
  { by rewrite He. }
  exists w1, w2. split_and!; [done..|].
  apply map_eq. intros n. rewrite Hc2, He, Hf1, Hc1.
  by case_decide.
Qed.

(** X11.  [main] runs upload, clean and analyze in this order.  With the
    three of them asked for in one run, and no upload and no deletion
    failing, every file just uploaded is deleted again by the clean step
    before the analyze step looks at it: the run sends upload and delete
    calls only, classifies and moves nothing, and leaves in the container
    the objects of the target folder it held before and nothing else. *)
Theorem main_upload_clean_analyze (cfg : config) (svc : service)
    (local_dir : string) (keywords : list string) (w : world) :
  local_dir ≠ "" → local_dir ∈ dirs w →
  (∀ n, upload_fails svc n = false) → (∀ k, delete_fails svc k = false) →
  ∃ w' deleted,
    main cfg svc (Args (Some local_dir) true true None keywords) w = (Ret tt, w') ∧
    calls w' = calls w ++ uploads (files w) local_dir (dir_entries w local_dir) ++
               (BlobDelete <$> deleted) ∧
    (∀ n data, BlobUpload n data ∈ uploads (files w) local_dir (dir_entries w local_dir) →
               n ∈ deleted) ∧
    (∀ k, container w' !! k =
          if Py.startswith k TREE_FOLDER then container w !! k else None).
Proof.
  intros Hne Hd Hup Hdel.
  destruct (upload_local_images_run svc local_dir w Hd) as (w1 & Hrun1 & Hf1 & Hd1 & Hcs1 & Hc1).
  { intros n _. apply Hup. }
  destruct (clean_blob_storage_run svc w1) as (w2 & Hrun2 & Hc2 & Hcs2 & _).
  { intros k _ _. apply Hdel. }
  assert (∀ k, k ∈ dom (container w2) → Py.startswith k TREE_FOLDER = true) as Hin2.
  { intros k [v Hk]%elem_of_dom. rewrite Hc2 in Hk.
    by destruct (Py.startswith k TREE_FOLDER). }
  exists w2, (outside_tree_folder (sorted_names (dom (container w1)))).
  split_and!.
  - unfold main, given. cbn [arg_upload arg_clean arg_analyze arg_download arg_keywords].
    rewrite bool_decide_eq_false_2 by done.
    assert (analyze_and_move_blobs cfg svc keywords w2 = (Ret tt, w2)) as Hrun3.
    { unfold analyze_and_move_blobs, io_bind, list_blobs.
      by rewrite (outside_tree_folder_nil (container w2) Hin2). }
    unfold io_bind at 1. rewrite Hrun1.
    unfold io_bind at 1. rewrite Hrun2.
    unfold io_bind at 1. by rewrite Hrun3.
  - by rewrite Hcs2, Hcs1, <- app_assoc.
  - intros n data (n' & data' & [= <- <-] & Hn & Hv & Hfile)%elem_of_uploads.
    apply elem_of_outside_tree_folder. split; [|by eapply dir_entries_outside].
    apply elem_of_sorted_names, elem_of_dom. rewrite Hc1.
    rewrite decide_True by eauto. eauto.
  - intros k. rewrite Hc2.
    destruct (Py.startswith k TREE_FOLDER) eqn:Hpre; [|done].
    rewrite Hc1. rewrite decide_False; [done|].
    intros (Hk & _). apply dir_entries_outside in Hk. congruence.
Qed.

(** A deletion that fails ends the clean loop: the calls sent so far are
    delete calls, and the local files are as they were. *)
Lemma clean_loop_raises (svc : service) (l : list string) (w : world) :
  NoDup l →
  (∀ k, k ∈ l → is_Some (container w !! k)) →
  (∃ k, k ∈ l ∧ Py.startswith k TREE_FOLDER = false ∧ delete_fails svc k = true) →
  ∃ e deleted w',
    for_each l (clean_blob_storage_body svc) w = (Raise e, w') ∧
    calls w' = calls w ++ (BlobDelete <$> deleted) ∧
    files w' = files w ∧ dirs w' = dirs w.
Proof.
  revert w. induction l as [|x l IH]; intros w Hnd Hin (k & Hk & Hout & Hfail).
  { by apply elem_of_nil in Hk. }
  apply NoDup_cons in Hnd as [Hx Hnd].
  destruct (Py.startswith x TREE_FOLDER) eqn:Hpre.
  - destruct (IH w Hnd) as (e & deleted & w' & Hrun & Hrest).
    { intros k' Hk'. apply Hin. by right. }
    { exists k. split_and!; [|done..].
      apply elem_of_cons in Hk as [->|Hk]; [congruence|done]. }
    exists e, deleted, w'. split; [|done].
    by rewrite (for_each_continue _ _ _ _ w (clean_body_inside svc x w Hpre)).
  - destruct (delete_fails svc x) eqn:Hfx.
    + eexists _, [x], _. split.
      * apply for_each_raise. by apply clean_body_delete_fails.
      * done.
    + set (w1 := set_container (delete x)
               (add_call (BlobDelete x) (add_stdout ("Deleting blob: " +:+ x) w))).
      destruct (IH w1 Hnd) as (e & deleted & w' & Hrun & Hcs & Hf & Hd).
      { intros k' Hk'. simpl. rewrite lookup_delete_ne by (by intros ->).
        apply Hin. by right. }
      { exists k. split_and!; [|done..].
        apply elem_of_cons in Hk as [->|Hk]; [congruence|done]. }
      exists e, (x :: deleted), w'. split.
      * rewrite (for_each_continue _ _ _ _ w1); [done|].
        apply clean_body_outside; [done..|]. apply Hin. by left.
      * rewrite Hcs, Hf, Hd. simpl. by rewrite <- app_assoc.
Qed.

(** X15.  [main] catches nothing: when the clean step is asked for and the
    deletion of some object outside the target folder fails, [main] raises;
    the analyze and download steps asked for in the same run do not start
    (the run has sent delete calls only and written no local file), and the
    objects of the target folder are as they were. *)
Theorem main_stops_at_failed_delete (cfg : config) (svc : service)
    (analyze : bool) (download : option string) (keywords : list string) (w : world) :
  (∃ k, k ∈ dom (container w) ∧ Py.startswith k TREE_FOLDER = false ∧
        delete_fails svc k = true) →
  ∃ e deleted w',
    main cfg svc (Args None true analyze download keywords) w = (Raise e, w') ∧
    calls w' = calls w ++ (BlobDelete <$> deleted) ∧
    files w' = files w ∧ dirs w' = dirs w ∧
    (∀ k, Py.startswith k TREE_FOLDER = true → container w' !! k = container w !! k).
Proof.
  intros (k & Hk & Hout & Hfail).
  destruct (clean_loop_raises svc (sorted_names (dom (container w))) w)
    as (e & deleted & w' & Hrun & Hcs & Hf & Hd).
  { apply NoDup_sorted_names. }
  { intros k' Hk'. by apply elem_of_dom, elem_of_sorted_names. }
  { exists k. split_and!; [|done..]. by apply elem_of_sorted_names. }
  exists e, deleted, w'.
  assert (main cfg svc (Args None true analyze download keywords) w = (Raise e, w')) as Hmain.
  { unfold main, given. cbn [arg_upload arg_clean arg_analyze arg_download arg_keywords].
    unfold io_bind at 1. unfold io_ret at 1.
    unfold io_bind at 1. unfold clean_blob_storage.
    unfold io_bind at 1. unfold list_blobs.
    unfold io_bind at 1. by rewrite Hrun. }
  split_and!; [done..|].
  intros k' Hk'.
  pose proof (clean_loop_inside_untouched svc (sorted_names (dom (container w))) k' w Hk')
    as Hun.
  by rewrite Hrun in Hun.
Qed.

(** *** What the analyze step never does *)

Section AnalyzeKeeps.
Context (cfg : config) (svc : service).

Lemma analyze_keeps_refl (blobs : list string) (w : world) : analyze_keeps cfg blobs w w.
Proof.
  split_and!; [done..|]. exists []. rewrite app_nil_r. split; [done|].
  by intros c ?%elem_of_nil.
Qed.

Lemma analyze_keeps_trans (blobs : list string) (w1 w2 w3 : world) :
  analyze_keeps cfg blobs w1 w2 → analyze_keeps cfg blobs w2 w3 →
  analyze_keeps cfg blobs w1 w3.
Proof.
  intros (Hc1 & Hd1 & Hf1 & new1 & Hcs1 & Hn1) (Hc2 & Hd2 & Hf2 & new2 & Hcs2 & Hn2).
  split_and!.
  - intros k Hk. by rewrite Hc2, Hc1.
  - congruence.
  - intros p Hp. by rewrite Hf2, Hf1.
  - exists (new1 ++ new2). rewrite Hcs2, Hcs1, <- app_assoc. split; [done|].
    intros c [?|?]%elem_of_app; auto.
Qed.

Lemma analyze_may_send_mono (blobs blobs' : list string) (c : call) :
  (∀ b, b ∈ blobs → b ∈ blobs') →
  analyze_may_send cfg blobs c → analyze_may_send cfg blobs' c.
Proof.
  intros Hsub. destruct c; simpl; auto.
  intros (b & ? & ? & ?). exists b. auto.
Qed.

Lemma analyze_keeps_mono (blobs blobs' : list string) (w w' : world) :
  (∀ b, b ∈ blobs → b ∈ blobs') →
  analyze_keeps cfg blobs w w' → analyze_keeps cfg blobs' w w'.
Proof.
  intros Hsub (Hc & Hd & Hf & new & Hcs & Hn). split_and!; [done..| |].
  - intros p Hp. apply Hf. intros (b & -> & Hb)%list_elem_of_fmap.
    apply Hp, list_elem_of_fmap. exists b. auto.
  - exists new. split; [done|]. intros c Hin.
    eapply analyze_may_send_mono; [done|]. by apply Hn.
Qed.

(** A change of the printed lines, of the temporary file of a blob of
    [blobs], or one more call that may be sent, keeps what is to be kept. *)
Lemma analyze_keeps_step (blobs : list string) (b : string) (w w' : world)
    (new : list call) :
  b ∈ blobs →
  (∀ k, Py.startswith k TREE_FOLDER = false → container w' !! k = container w !! k) →
  dirs w' = dirs w →
  (∀ p, p ≠ temp_path_of b → files w' !! p = files w !! p) →
  calls w' = calls w ++ new →
  (∀ c, c ∈ new → analyze_may_send cfg blobs c) →
  analyze_keeps cfg blobs w w'.
Proof.
  intros Hb Hc Hd Hf Hcs Hn. split_and!; [done..| |by exists new].
  intros p Hp. apply Hf. intros ->. apply Hp, list_elem_of_fmap. by exists b.
Qed.

Lemma move_keeps (blobs : list string) (b : string) (w : world) :
  b ∈ blobs →
  analyze_keeps cfg blobs w (move_blob_to_tree_folder cfg svc b w).2.
Proof.
  intros Hb.
  apply (analyze_keeps_step blobs b _ _ [BlobCopy (tree_blob_name b) (blob_url cfg b)]);
    [done| | | |apply move_calls|].
  - intros k Hk.
    unfold move_blob_to_tree_folder, io_bind, start_copy_from_url, print. simpl.
    destruct (copy_fails svc _ _); [done|].
    destruct (url_blob_name cfg (blob_url cfg b) ≫= _); [|done].
    simpl. by apply insert_tree_blob_outside.
  - unfold move_blob_to_tree_folder, io_bind, start_copy_from_url, print. simpl.
    destruct (copy_fails svc _ _); [done|].
    by destruct (url_blob_name cfg (blob_url cfg b) ≫= _).
  - intros p _.
    unfold move_blob_to_tree_folder, io_bind, start_copy_from_url, print. simpl.
    destruct (copy_fails svc _ _); [done|].
    by destruct (url_blob_name cfg (blob_url cfg b) ≫= _).
  - intros c ->%list_elem_of_singleton. simpl. by exists b.
Qed.

Lemma classify_keeps (blobs : list string) (image_path term : string) (w : world) :
  analyze_keeps cfg blobs w (analyze_image_file svc image_path term w).2.
Proof.
  destruct (analyze_image_file_run svc image_path term w) as [out ->]. simpl.
  split_and!; [done..|]. eexists. split; [done|].
  intros c Hc. destruct (files w !! image_path); simpl in Hc.
  - by apply list_elem_of_singleton in Hc as ->.
  - by apply elem_of_nil in Hc.
Qed.

Lemma keyword_loop_keeps (blobs keywords : list string) (b : string)
    (remaining : list string) (w : world) :
  b ∈ blobs →
  analyze_keeps cfg blobs w
    (keyword_loop cfg svc keywords (temp_path_of b) b remaining w).2.
Proof.
  intros Hb. revert w. induction remaining as [|kw rest IH]; intros w.
  { apply analyze_keeps_refl. }
  simpl. unfold io_bind at 1.
  pose proof (classify_keeps blobs (temp_path_of b) kw w) as H1.
  destruct (analyze_image_file svc (temp_path_of b) kw w) as [[tags|e] w1]; [|done].
  simpl in H1. eapply analyze_keeps_trans; [done|].
  destruct (negb _ && _).
  - unfold io_bind, io_ret.
    pose proof (move_keeps blobs b w1 Hb) as H2.
    by destruct (move_blob_to_tree_folder cfg svc b w1) as [[[]|e] w2].
  - apply IH.
Qed.

Lemma analyze_body_keeps (blobs keywords : list string) (b : string) (w : world) :
  (is_video b = false → b ∈ blobs) →
  analyze_keeps cfg blobs w (analyze_and_move_body cfg svc keywords b w).2.
Proof.
  intros Hb. unfold analyze_and_move_body.
  destruct (is_video b) eqn:Hv.
  { unfold print. simpl. split_and!; [done..|]. exists []. rewrite app_nil_r.
    split; [done|]. by intros c ?%elem_of_nil. }
  specialize (Hb eq_refl).
  unfold io_bind at 1. unfold open_wb.
  case_bool_decide; [apply analyze_keeps_refl|].
  destruct (_ || _); [apply analyze_keeps_refl|].
  unfold io_bind at 1. unfold download_blob. cbv zeta.
  set (w1 := add_call (BlobDownload b) (set_files (insert (temp_path_of b) []) w)).
  assert (analyze_keeps cfg blobs w w1) as H1.
  { apply (analyze_keeps_step blobs b _ _ [BlobDownload b]); [done..| |done|].
    - intros p Hp. simpl. by apply lookup_insert_ne.
    - by intros c ->%list_elem_of_singleton. }
  destruct (download_fails svc b); [done|].
  destruct (container w1 !! b) as [data|]; [|done].
  unfold io_bind at 1. unfold write_file.
  set (w2 := set_files (insert (temp_path_of b) data) w1).
  assert (analyze_keeps cfg blobs w1 w2) as H2.
  { apply (analyze_keeps_step blobs b _ _ []); [done..| | |].
    - intros p Hp. simpl. by apply lookup_insert_ne.
    - simpl. by rewrite app_nil_r.
    - by intros c ?%elem_of_nil. }
  unfold io_bind at 1.
  pose proof (keyword_loop_keeps blobs keywords b keywords w2 Hb) as H3.
  destruct (keyword_loop cfg svc keywords (temp_path_of b) b keywords w2)
    as [[found|e] w3]; simpl in H3.
  2:{ simpl. eauto using analyze_keeps_trans. }
  assert (analyze_keeps cfg blobs w w3) as H13 by eauto using analyze_keeps_trans.
  clear H1 H2 H3. clearbody w1 w2.
  unfold io_bind at 1.
  set (w4 := ((if negb found then print ("No target keywords found in " +:+ b)
               else io_ret tt) w3).2).
  assert (analyze_keeps cfg blobs w3 w4 ∧
          (if negb found then print ("No target keywords found in " +:+ b)
           else io_ret tt) w3 = (Ret tt, w4)) as [H4 ->].
  { subst w4. destruct found; simpl; (split; [|done]);
      apply (analyze_keeps_step blobs b _ _ []); try done;
      try (by rewrite app_nil_r); by intros c ?%elem_of_nil. }
  unfold os_remove.
  destruct (files w4 !! temp_path_of b); simpl; [|eauto using analyze_keeps_trans].
  eapply analyze_keeps_trans; [done|]. eapply analyze_keeps_trans; [done|].
  apply (analyze_keeps_step blobs b _ _ []); try done.
  - intros p Hp. simpl. by apply lookup_delete_ne.
  - simpl. by rewrite app_nil_r.
  - by intros c ?%elem_of_nil.
Qed.

Lemma analyze_loop_keeps (blobs keywords l : list string) (w : world) :
  (∀ b, b ∈ non_videos l → b ∈ blobs) →
  analyze_keeps cfg blobs w (for_each l (analyze_and_move_body cfg svc keywords) w).2.
Proof.
  revert w. induction l as [|b l IH]; intros w Hsub; [apply analyze_keeps_refl|].
  rewrite for_each_cons.
  pose proof (analyze_body_keeps blobs keywords b w) as H1.
  destruct (analyze_and_move_body cfg svc keywords b w) as [[[]|e] w1]; simpl in H1.
  - eapply analyze_keeps_trans.
    + apply H1. intros Hv. apply Hsub, list_elem_of_filter. split; [done|by left].
    + apply IH. intros b' Hb'. apply Hsub.
      apply list_elem_of_filter in Hb' as [? ?]. apply list_elem_of_filter.
      split; [done|by right].
  - apply H1. intros Hv. apply Hsub, list_elem_of_filter. split; [done|by left].
Qed.

End AnalyzeKeeps.

(** X12.  Whatever fails, the analyze step never changes or removes a blob
    outside the target folder, never makes or removes a directory, never
    touches a local file other than the temporary files of the blobs it
    works on, and sends no upload and no delete call: every call it sends
    is a classifier call, or the download of a blob that was outside the
    target folder and is not a video, or the copy of such a blob to
    "tree-pictures/" plus its base filename. *)
Theorem analyze_and_move_blobs_keeps (cfg : config) (svc : service)
    (keywords : list string) (w : world) :
  let blobs := non_videos (outside_tree_folder (sorted_names (dom (container w)))) in
  (∀ b, b ∈ blobs ↔
        b ∈ dom (container w) ∧ Py.startswith b TREE_FOLDER = false ∧ is_video b = false) ∧
  analyze_keeps cfg blobs w (analyze_and_move_blobs cfg svc keywords w).2.
Proof.
  intros blobs. split; [apply elem_of_step_blobs|].
  unfold analyze_and_move_blobs, io_bind, list_blobs.
  by apply analyze_loop_keeps.
Qed.

(** *** Edge cases of the keywords *)

Lemma blob_matches_no_keywords (svc : service) (data : bytes) :
  blob_matches svc [] data = false.
Proof. unfold blob_matches. by rewrite bool_decide_eq_true_2. Qed.

Lemma analyze_loop_no_keywords (cfg : config) (svc : service) (c0 : gmap string bytes)
    (l : list string) (w : world) :
  container w = c0 →
  (∀ b, b ∈ non_videos l →
        is_Some (c0 !! b) ∧ download_fails svc b = false ∧ temp_path_of b ∉ dirs w) →
  ∃ w', for_each l (analyze_and_move_body cfg svc []) w = (Ret tt, w') ∧
        dirs w' = dirs w ∧ container w' = c0 ∧
        (∀ p, files w' !! p =
              if decide (p ∈ temp_path_of <$> non_videos l) then None else files w !! p) ∧
        calls w' = calls w ++ (BlobDownload <$> non_videos l).
Proof.
  revert w. induction l as [|b l IH]; intros w Hc0 Hok.
  { exists w. split_and!; [done..| |by rewrite app_nil_r].
    intros p. case_decide as H; [|done]. by apply elem_of_nil in H. }
  unfold non_videos in *.
  destruct (is_video b) eqn:Hv.
  - rewrite filter_cons_False in * by congruence.
    destruct (IH (add_stdout ("Skipping video: " +:+ b) w)) as (w' & Hrun & Hrest);
      [done..|].
    exists w'. by rewrite (for_each_continue _ _ _ _ _ (analyze_body_video cfg svc [] b w Hv)).
  - rewrite filter_cons_True in * by done.
    destruct (Hok b) as ([data Hb0] & Hdl & Hdir); [by left|].
    destruct (analyze_body_ok cfg svc [] b data w Hv) as (w1 & Hrun1 & Hf1 & Hd1 & Hc1 & Hcs1);
      [congruence|done| |done|].
    { by rewrite blob_matches_no_keywords. }
    unfold analyze_calls in Hcs1. rewrite blob_matches_no_keywords in Hc1, Hcs1.
    destruct (IH w1) as (w' & Hrun & Hd & Hc & Hf & Hcs); [congruence| |].
    { intros b' Hb'. rewrite Hd1. apply Hok. by right. }
    exists w'. rewrite (for_each_continue _ _ _ _ _ Hrun1).
    split_and!; [done|congruence|done| |].
    + intros p. rewrite Hf, Hf1. rewrite fmap_cons.
      destruct (decide (p = temp_path_of b)) as [->|Hne].
      * rewrite lookup_delete_eq.
        rewrite (decide_True (P := _ ∈ _ :: _)) by by left.
        by case_decide.
      * rewrite lookup_delete_ne by done.
        repeat case_decide; try done.
        -- exfalso. match goal with H : ¬ _ |- _ => apply H end. by right.
        -- match goal with H : p ∈ _ :: _ |- _ =>
             apply elem_of_cons in H as [?|?] end; done.
    + rewrite Hcs, Hcs1. simpl. by rewrite <- app_assoc.
Qed.

(** X13.  With an empty keyword list the analyze step classifies nothing
    and moves nothing, and a failing copy service cannot disturb it; when
    no download fails and no directory sits at a temporary path it returns
    normally, having downloaded every blob outside the target folder that
    is not a video, once and in listing order, and having removed every
    temporary file again. *)
Theorem analyze_without_keywords (cfg : config) (svc : service) (w : world) :
  let blobs := non_videos (outside_tree_folder (sorted_names (dom (container w)))) in
  (∀ b, b ∈ blobs → download_fails svc b = false ∧ temp_path_of b ∉ dirs w) →
  ∃ w', analyze_and_move_blobs cfg svc [] w = (Ret tt, w') ∧
        container w' = container w ∧
        calls w' = calls w ++ (BlobDownload <$> blobs) ∧
        (∀ p, files w' !! p =
              if decide (p ∈ temp_path_of <$> blobs) then None else files w !! p).
Proof.
  intros blobs Hok.
  destruct (analyze_loop_no_keywords cfg svc (container w)
              (outside_tree_folder (sorted_names (dom (container w)))) w)
    as (w' & Hrun & _ & Hc & Hf & Hcs); [done| |].
  { intros b Hb. destruct (Hok b Hb) as [? ?]. split_and!; [|done..].
    apply elem_of_step_blobs in Hb as (Hb & _). by apply elem_of_dom. }
  exists w'. split_and!; [|done..].
  unfold analyze_and_move_blobs, io_bind, list_blobs. by rewrite <- Hrun.
Qed.

(** The copy call of a processed blob is in the calls of the step exactly
    when the keyword loop finds the blob. *)
Lemma copy_in_step_calls (cfg : config) (svc : service) (keywords : list string)
    (c : gmap string bytes) (l : list string) (b : string) (data : bytes) :
  c !! b = Some data → b ∈ non_videos l →
  BlobCopy (tree_blob_name b) (blob_url cfg b) ∈ step_calls cfg svc keywords c l ↔
  blob_matches svc keywords data = true.
Proof.
  intros Hb Hin. unfold step_calls. rewrite list_elem_of_join. split.
  - intros (cs & Hc & Hcs).
    apply list_elem_of_fmap in Hcs as (b' & -> & Hb').
    destruct (c !! b') as [data'|] eqn:Hd'; simpl in Hc; [|by apply elem_of_nil in Hc].
    apply copy_in_analyze_calls in Hc as (Hm & _ & Hurl).
    apply blob_url_inj in Hurl as ->. congruence.
  - intros Hm. eexists. split.
    2:{ apply list_elem_of_fmap. by exists b. }
    rewrite Hb. simpl. by apply copy_in_analyze_calls.
Qed.

(** X14.  The keyword test is a substring test, and every string holds the
    empty string: when the empty keyword is among the keywords (and no
    download and no copy fails, and no directory sits at a temporary path),
    the step copies a processed blob exactly when the classifier returned at
    least one tag for it.  A blob for which the classifier returned no tag,
    or whose classification raised, is not copied whatever the keywords
    are. *)
Theorem analyze_with_empty_keyword (cfg : config) (svc : service)
    (keywords : list string) (w : world) :
  (∀ b, b ∈ dom (container w) → Py.startswith b TREE_FOLDER = false → is_video b = false →
        download_fails svc b = false ∧
        copy_fails svc (tree_blob_name b) (blob_url cfg b) = false ∧
        temp_path_of b ∉ dirs w) →
  ∃ w' new,
    analyze_and_move_blobs cfg svc keywords w = (Ret tt, w') ∧
    calls w' = calls w ++ new ∧
    ∀ b data, container w !! b = Some data →
      Py.startswith b TREE_FOLDER = false → is_video b = false →
      (tags_of svc data = [] → BlobCopy (tree_blob_name b) (blob_url cfg b) ∉ new) ∧
      ("" ∈ keywords →
       (BlobCopy (tree_blob_name b) (blob_url cfg b) ∈ new ↔ tags_of svc data ≠ [])).
Proof.
  intros Hok.
  destruct (analyze_and_move_blobs_run cfg svc keywords w) as (w' & Hrun & _ & _ & _ & Hcs).
  { intros b (? & ? & ?)%elem_of_step_blobs. by apply Hok. }
  eexists w', _. split_and!; [done..|].
  intros b data Hb Hout Hv.
  assert (b ∈ non_videos (outside_tree_folder (sorted_names (dom (container w))))) as Hin.
  { apply elem_of_step_blobs. split_and!; [|done..]. apply elem_of_dom. eauto. }
  rewrite (copy_in_step_calls cfg svc keywords _ _ b data Hb Hin), blob_matches_iff.
  split.
  - intros Hnil (kw & tag & _ & Htag & _). rewrite Hnil in Htag.
    by apply elem_of_nil in Htag.
  - intros Hkw. split.
    + intros (kw & tag & _ & Htag & _) Hnil. rewrite Hnil in Htag.
      by apply elem_of_nil in Htag.
    + intros Hne. destruct (tags_of svc data) as [|tag tags] eqn:Ht; [done|].
      exists "", tag. split_and!; [done|by left|].
      apply contains_spec. by exists "", tag.
Qed.

(** *** From the analyze step to the download step *)

Lemma download_tree_media_run (svc : service) (local_dir : string) (w : world) :
  let blobs := inside_tree_folder (sorted_names (dom (container w))) in
  local_dir ≠ "" → local_dir ∉ dom (files w) →
  (∀ b, b ∈ blobs → download_fails svc b = false ∧ Py.basename b ≠ "" ∧
                    Py.join local_dir (Py.basename b) ∉ dirs w) →
  ∃ w', download_tree_media svc local_dir w = (Ret tt, w') ∧
        container w' = container w ∧
        files w' = apply_writes (download_writes local_dir (container w) blobs) (files w).
Proof.
  intros blobs Hne Hnf Hok.
  set (w1 := add_stdout ("Found " +:+ pretty (length blobs) +:+ " files in " +:+ TREE_FOLDER)
               (set_dirs (union {[ local_dir ]}) w)).
  destruct (download_loop svc local_dir blobs w1) as (w' & Hrun & Hc & Hd & Hf & Hcs).
  { intros b Hb. destruct (Hok b Hb) as (Hdl & Hbase & Hdir).
    split_and!; [|done|].
    - apply elem_of_inside_tree_folder in Hb as [Hb _].
      by apply elem_of_dom, elem_of_sorted_names.
    - destruct (can_open_wb_join local_dir b w Hne Hbase Hdir) as (Hned & ? & ? & ?).
      split_and!; [done| |done]. simpl. set_unfold. tauto. }
  exists (add_stdout "Download complete." w'). split_and!; [|done..].
  unfold download_tree_media, io_bind, os_makedirs, list_blobs, print.
  rewrite bool_decide_eq_false_2 by done.
  rewrite bool_decide_eq_false_2 by done. simpl.
  fold blobs. fold w1. by rewrite Hrun.
Qed.

Lemma basename_tree_blob_name (b : string) :
  Py.basename (tree_blob_name b) = Py.basename b.
Proof.
  unfold tree_blob_name. unfold Py.basename at 1.
  rewrite rfind_append, basename_no_sep.
  change (0 <=? -1) with false. cbv iota.
  change (Py.rfind TREE_FOLDER "/" + 1) with (Py.len TREE_FOLDER).
  unfold Py.slice_from, Py.len. rewrite Nat2Z.id. apply drop_nat_append.
Qed.

Lemma join_basename_inj (d p q : string) :
  Py.join d (Py.basename p) = Py.join d (Py.basename q) → Py.basename p = Py.basename q.
Proof.
  unfold Py.join.
  rewrite (rfind_none_startswith _ _ (basename_no_sep p)).
  rewrite (rfind_none_startswith _ _ (basename_no_sep q)).
  destruct (_ || _); intros H.
  - by apply (inj (String.app d)) in H.
  - apply (inj (String.app d)) in H. by apply (inj (String.app "/")) in H.
Qed.

Lemma elem_of_copies (svc : service) (keywords : list string) (c : gmap string bytes)
    (l : list string) (k : string) (v : bytes) :
  (k, v) ∈ copies svc keywords c l ↔
  ∃ b, b ∈ non_videos l ∧ c !! b = Some v ∧ blob_matches svc keywords v = true ∧
       k = tree_blob_name b.
Proof.
  unfold copies. rewrite list_elem_of_omap. split.
  - intros (b & Hb & Hc). destruct (c !! b) as [data|] eqn:Hd; [|done]. simpl in Hc.
    destruct (blob_matches svc keywords data) eqn:Hm; [|done].
    injection Hc as <- <-. by exists b.
  - intros (b & Hb & Hc & Hm & ->). exists b. split; [done|].
    rewrite Hc. simpl. by rewrite Hm.
Qed.

Lemma lookup_apply_writes_Some ws (m : gmap string bytes) (k : string) (v : bytes) :
  apply_writes ws m !! k = Some v → m !! k = Some v ∨ (k, v) ∈ ws.
Proof.
  intros H. destruct (decide (k ∈ ws.*1)) as [Hin|Hin].
  - destruct (lookup_apply_writes_written ws m k Hin) as (v' & Hv' & Hl).
    right. congruence.
  - left. by rewrite lookup_apply_writes_other in H.
Qed.

(** X17.  From a blob to a local file, through both steps.  When the
    analyze step and then the download step run ([main] with the two flags),
    nothing fails, every blob has a base filename, no directory sits at a
    temporary or destination path, and a blob outside the target folder that
    is not a video has a tag containing one of the keywords and shares its
    base filename with no other blob, then [main] returns normally, the file
    of that base filename in the download directory holds the bytes of the
    blob, and the blob is still in the container under its old name. *)
Theorem main_analyze_then_download (cfg : config) (svc : service)
    (local_dir : string) (keywords : list string) (b : string) (data : bytes)
    (kw tag : string) (w : world) :
  local_dir ≠ "" → local_dir ∉ dom (files w) →
  (∀ k, download_fails svc k = false) → (∀ dst url, copy_fails svc dst url = false) →
  (∀ k, k ∈ dom (container w) →
        Py.basename k ≠ "" ∧ (temp_path_of k ∉ dirs w) ∧
        Py.join local_dir (Py.basename k) ∉ dirs w) →
  container w !! b = Some data →
  Py.startswith b TREE_FOLDER = false → is_video b = false →
  kw ∈ keywords → tag ∈ tags_of svc data → Py.contains tag kw = true →
  (∀ k, k ∈ dom (container w) → Py.basename k = Py.basename b → k = b) →
  ∃ w',
    main cfg svc (Args None false true (Some local_dir) keywords) w = (Ret tt, w') ∧
    files w' !! Py.join local_dir (Py.basename b) = Some data ∧
    container w' !! b = Some data.
Proof.
  intros Hne Hnf Hdl Hcp Hall Hb Hout Hv Hkw Htag Hcont Huniq.
  assert (blob_matches svc keywords data = true) as Hm.
  { apply blob_matches_iff. by exists kw, tag. }
  set (l := outside_tree_folder (sorted_names (dom (container w)))).
  assert (b ∈ non_videos l) as Hbl.
  { apply elem_of_step_blobs. split_and!; [|done..]. apply elem_of_dom. eauto. }
  (* the analyze step *)
  destruct (analyze_and_move_blobs_run cfg svc keywords w)
    as (w1 & Hrun1 & Hd1 & Hc1 & Hf1 & _).
  { intros k (Hk & _ & _)%elem_of_step_blobs. split_and!; [done..|]. by apply Hall. }
  fold l in Hc1, Hf1.
  assert (∀ k v, container w1 !! k = Some v →
                 container w !! k = Some v ∨
                 ∃ b', b' ∈ non_videos l ∧ container w !! b' = Some v ∧
                       k = tree_blob_name b') as Hdom1.
  { intros k v Hk. rewrite Hc1 in Hk.
    apply lookup_apply_writes_Some in Hk as [?|Hk]; [by left|]. right.
    apply elem_of_copies in Hk as (b' & ? & ? & _ & ?). by exists b'. }
  assert (∀ b', b' ∈ non_videos l → b' ∈ dom (container w)) as Hnv.
  { by intros b' (? & _)%elem_of_step_blobs. }
  assert (container w1 !! tree_blob_name b = Some data) as Hcopy.
  { rewrite Hc1. apply lookup_apply_writes_unique.
    - apply elem_of_copies. by exists b.
    - intros v' (b' & Hb' & Hv' & _ & Heq)%elem_of_copies.
      assert (b' = b) as ->; [|congruence].
      apply Huniq; [by apply Hnv|].
      by rewrite <- (basename_tree_blob_name b'), <- Heq, basename_tree_blob_name. }
  assert (container w1 !! b = Some data) as Hsrc.
  { rewrite Hc1, lookup_apply_writes_other; [done|].
    intros ([k v] & Hkv & Hin)%list_elem_of_fmap. simpl in Hkv. subst k.
    apply elem_of_copies in Hin as (b' & _ & _ & _ & Heq).
    rewrite Heq, tree_blob_name_inside in Hout. done. }
  assert (∀ k, k ∈ dom (container w1) →
               ∃ k0, k0 ∈ dom (container w) ∧ Py.basename k = Py.basename k0 ∧
                     (k = k0 ∨ k = tree_blob_name k0)) as Horigin.
  { intros k [v Hk]%elem_of_dom.
    destruct (Hdom1 k v Hk) as [Hk0|(b' & Hb' & _ & ->)].
    - exists k. split_and!; [apply elem_of_dom; eauto|done|by left].
    - exists b'. split_and!; [by apply Hnv|apply basename_tree_blob_name|by right]. }
  (* the download step *)
  destruct (download_tree_media_run svc local_dir w1) as (w2 & Hrun2 & Hc2 & Hf2).
  { done. }
  { apply not_elem_of_dom. rewrite Hf1. case_decide; [done|].
    by apply not_elem_of_dom. }
  { intros k [Hk _]%elem_of_inside_tree_folder.
    apply elem_of_sorted_names in Hk.
    destruct (Horigin k Hk) as (k0 & Hk0 & Hbase & _).
    destruct (Hall k0 Hk0) as (? & _ & ?).
    rewrite Hbase, Hd1. auto. }
  exists w2. split_and!.
  - unfold main, given. cbn [arg_upload arg_clean arg_analyze arg_download arg_keywords].
    rewrite bool_decide_eq_false_2 by done.
    unfold io_bind at 1. unfold io_ret at 1.
    unfold io_bind at 1. unfold io_ret at 1.
    unfold io_bind at 1. by rewrite Hrun1.
  - rewrite Hf2, <- (basename_tree_blob_name b).
    apply lookup_apply_writes_unique.
    + unfold download_writes. apply list_elem_of_omap. exists (tree_blob_name b).
      split; [|by rewrite Hcopy].
      apply elem_of_inside_tree_folder. split; [|apply tree_blob_name_inside].
      apply elem_of_sorted_names, elem_of_dom. eauto.
    + intros v' Hv'. unfold download_writes in Hv'.
      apply list_elem_of_omap in Hv' as (k & Hk & Heq).
      destruct (container w1 !! k) as [v|] eqn:Hkv; [|done]. simpl in Heq.
      injection Heq as Hpath <-.
      apply join_basename_inj in Hpath. rewrite basename_tree_blob_name in Hpath.
      apply elem_of_inside_tree_folder in Hk as [Hk Hin].
      apply elem_of_sorted_names in Hk.
      destruct (Horigin k Hk) as (k0 & Hk0 & Hbase & Hor).
      assert (k0 = b) as -> by (apply Huniq; [done|congruence]).
      destruct Hor as [->| ->]; [congruence|congruence].
  - by rewrite Hc2.
Qed.

(** X18.  The calls of a run of the analyze step in which no download and
    no copy fails and no directory sits at a temporary path: for each blob
    outside the target folder that is not a video, in listing order, its
    download; then, when a keyword matches, one classifier call and the
    copy, and otherwise one classifier call for every keyword and no copy.
    A video is neither downloaded nor classified. *)
Theorem analyze_and_move_blobs_calls (cfg : config) (svc : service)
    (keywords : list string) (w : world) :
  let blobs := non_videos (outside_tree_folder (sorted_names (dom (container w)))) in
  (∀ b, b ∈ blobs →
        download_fails svc b = false ∧
        copy_fails svc (tree_blob_name b) (blob_url cfg b) = false ∧
        temp_path_of b ∉ dirs w) →
  ∃ w', analyze_and_move_blobs cfg svc keywords w = (Ret tt, w') ∧
        calls w' = calls w ++
          mjoin ((λ b, match container w !! b with
                       | Some data =>
                           BlobDownload b ::
                           if blob_matches svc keywords data
                           then [VisionAnalyze data;
                                 BlobCopy (tree_blob_name b) (blob_url cfg b)]
                           else replicate (length keywords) (VisionAnalyze data)
                       | None => []
                       end) <$> blobs).
Proof.
  intros blobs Hok.
  destruct (analyze_and_move_blobs_run cfg svc keywords w Hok) as (w' & Hrun & _ & _ & _ & Hcs).
  exists w'. split; [done|]. rewrite Hcs. reflexivity.
Qed.

(** ** Part 7: the scripts on concrete worlds *)

Module Examples.

Import Byte.
Import Worlds.

Example basename_nested : Py.basename "a/b/x.jpg" = "x.jpg".
Proof. by vm_compute. Qed.
Example basename_folder : Py.basename "tree-pictures/" = "".
Proof. by vm_compute. Qed.
Example splitext_last_dot : Py.splitext "a.b/c.tar.gz" = ("a.b/c.tar", ".gz").
Proof. by vm_compute. Qed.
Example splitext_dot_in_folder : Py.splitext "a.b/c" = ("a.b/c", "").
Proof. by vm_compute. Qed.
Example splitext_leading_dots : Py.splitext "..x" = ("..x", "").
Proof. by vm_compute. Qed.
Example is_video_hidden_file : is_video ".mp4" = false.
Proof. by vm_compute. Qed.
Example is_video_in_folder : is_video "holiday/Clip.WebM" = true.
Proof. by vm_compute. Qed.
Example join_plain : Py.join "out" "x.jpg" = "out/x.jpg".
Proof. by vm_compute. Qed.
Example join_trailing_sep : Py.join "out/" "x.jpg" = "out/x.jpg".
Proof. by vm_compute. Qed.
Example listdir_pics : dir_entries w_pics "pics" = ["a.jpg"; "clip.MP4"; "sub"].
Proof. by vm_compute. Qed.

(** The analyze step on the two images, keyword "tree": the image of the
    tree is copied into the target folder, the other one is not, and both
    stay where they were. *)
Example analyze_tree :
  ∃ w', analyze_and_move_blobs cfg0 svc_ok ["tree"] w_ab = (Ret tt, w') ∧
        listing (container w') = [("a.jpg", [x01]); ("b.jpg", [x02]);
                                  ("tree-pictures/a.jpg", [x01])] ∧
        listing (files w') = [] ∧
        calls w' = [BlobDownload "a.jpg"; VisionAnalyze [x01];
                    BlobCopy "tree-pictures/a.jpg"
                             "https://acct.blob.core.windows.net/media/a.jpg";
                    BlobDownload "b.jpg"; VisionAnalyze [x02]].
Proof. eexists. split; [by vm_compute|]. split_and!; vm_compute; reflexivity. Qed.

(** Two moved blobs of the same base filename: the bytes of the one listed
    last are what the destination holds. *)
Example analyze_same_basename :
  container (analyze_and_move_blobs cfg0
               (Service (λ _, Some (Analysis ["tree"] [] [])) no_fault no_fault no_fault
                        (λ _ _, false))
               ["tree"] w_xx).2 !! "tree-pictures/x.jpg" = Some [x02].
Proof. by vm_compute. Qed.

(** C1, at a keyword written with a capital.  The classifier lower-cases
    the service's tag "Tree" and the search term, and reports the term
    found; the loop then tests the keyword as given against the lower-case
    tags, finds nothing and copies nothing.  With the keyword in lower case
    the same blob is copied. *)
Theorem analyze_keyword_case_not_folded :
  let run keywords := (analyze_and_move_blobs cfg0 svc_ok keywords w_ab).2 in
  tags_of svc_ok [x01] = ["tree"; "plant"] ∧
  container (run ["Tree"]) !! "tree-pictures/a.jpg" = None ∧
  calls (run ["Tree"]) = [BlobDownload "a.jpg"; VisionAnalyze [x01];
                          BlobDownload "b.jpg"; VisionAnalyze [x02]] ∧
  stdout (run ["Tree"]) = ["Analyzing local image: temp_a.jpg";
                           "✓ Found 'Tree' in image tags!";
                           "No target keywords found in a.jpg";
                           "Analyzing local image: temp_b.jpg";
                           "✗ Did not find 'Tree' in image analysis";
                           "No target keywords found in b.jpg"] ∧
  container (run ["tree"]) !! "tree-pictures/a.jpg" = Some [x01].
Proof. cbv zeta. split_and!; vm_compute; reflexivity. Qed.

(** C2, against the claim: the delete of the first blob fails; the clean
    step raises, the second blob is never tried and stays in the
    container. *)
Lemma clean_aborts_on_failed_delete :
  (clean_blob_storage svc_delete_fails w_ab).1 = Raise (HttpResponseError "delete_blob" "a.jpg") ∧
  calls (clean_blob_storage svc_delete_fails w_ab).2 = [BlobDelete "a.jpg"] ∧
  container (clean_blob_storage svc_delete_fails w_ab).2 !! "b.jpg" = Some [x02].
Proof. split_and!; vm_compute; reflexivity. Qed.

Lemma storage_failure_aborts_witness :
  ∃ e w', for_each ([] ++ "a.jpg" :: ["b.jpg"]) (clean_blob_storage_body svc_delete_fails) w_ab =
            (Raise e, w') ∧
          container w' = container w_ab ∧ calls w' = calls w_ab ++ [BlobDelete "a.jpg"].
Proof.
  destruct (storage_failure_aborts_classifier_failure_skips cfg0 svc_delete_fails)
    as (_ & _ & H & _).
  apply H; by vm_compute.
Defined.

(** C3, against the claim: after the move the blob is still in the
    container under its old name. *)
Lemma move_keeps_source_blob :
  container (move_blob_to_tree_folder cfg0 svc_ok "a.jpg" w_ab).2 !! "a.jpg" = Some [x01] ∧
  container (move_blob_to_tree_folder cfg0 svc_ok "a.jpg" w_ab).2 !! "tree-pictures/a.jpg"
    = Some [x01].
Proof. split; vm_compute; reflexivity. Qed.

Lemma move_copies_witness :
  ∃ w', move_blob_to_tree_folder cfg0 svc_ok "a.jpg" w_ab = (Ret tt, w') ∧
        Py.startswith (tree_blob_name "a.jpg") TREE_FOLDER = true ∧
        container w' !! tree_blob_name "a.jpg" = Some [x01] ∧
        (∀ k, k ≠ tree_blob_name "a.jpg" → container w' !! k = container w_ab !! k) ∧
        (Py.startswith "a.jpg" TREE_FOLDER = false → container w' !! "a.jpg" = Some [x01]).
Proof.
  destruct (move_copies_into_tree_folder cfg0 svc_ok) as [_ H].
  apply H; by vm_compute.
Defined.

Lemma analyze_image_file_witness :
  analyze_image_file svc_vision_down "img.jpg" "tree" w_img =
    (Ret [],
     add_stdout "Error analyzing local image img.jpg: analyze_image_in_stream failed: "
       (add_call (VisionAnalyze [x07])
          (add_stdout "Analyzing local image: img.jpg" w_img))).
Proof.
  destruct (analyze_image_file_never_raises svc_vision_down "img.jpg" "tree" w_img) as [_ H].
  apply (H [x07] (HttpResponseError "analyze_image_in_stream" "")
           (add_call (VisionAnalyze [x07])
              (add_stdout "Analyzing local image: img.jpg" w_img))); by vm_compute.
Defined.

(** C5, against the claim: the blob matches and the copy fails; the step
    raises and the temporary file is still there. *)
Lemma temp_file_left_when_copy_fails :
  (analyze_and_move_blobs cfg0 svc_copy_fails ["tree"] w_ab).1 =
    Raise (HttpResponseError "start_copy_from_url"
                             "https://acct.blob.core.windows.net/media/a.jpg") ∧
  files (analyze_and_move_blobs cfg0 svc_copy_fails ["tree"] w_ab).2 !! "temp_a.jpg"
    = Some [x01].
Proof. split; vm_compute; reflexivity. Qed.

Lemma analyze_and_move_removes_temp_files_witness :
  ∃ w', analyze_and_move_blobs cfg0 svc_vision_down ["tree"] w_ab = (Ret tt, w') ∧
        ∀ b, b ∈ dom (container w_ab) → Py.startswith b TREE_FOLDER = false →
             is_video b = false → files w' !! temp_path_of b = None.
Proof.
  apply (analyze_and_move_removes_temp_files cfg0 svc_vision_down ["tree"] w_ab).
  intros b _ _ _. split_and!; [reflexivity..|]. apply not_elem_of_empty.
Defined.

Lemma analyze_and_move_copies_witness :
  ∃ w' new,
    analyze_and_move_blobs cfg0 svc_ok ["tree"] w_ab = (Ret tt, w') ∧
    calls w' = calls w_ab ++ new ∧
    (∀ k, Py.startswith k TREE_FOLDER = false → container w' !! k = container w_ab !! k) ∧
    ∀ b data, container w_ab !! b = Some data →
      Py.startswith b TREE_FOLDER = false → is_video b = false →
      (BlobCopy (tree_blob_name b) (blob_url cfg0 b) ∈ new ↔
       ∃ kw tag, kw ∈ ["tree"] ∧ tag ∈ tags_of svc_ok data ∧
                 ∃ pre post, tag = pre +:+ kw +:+ post).
Proof.
  apply (analyze_and_move_copies_iff cfg0 svc_ok ["tree"] w_ab).
  intros b _ _ _. split_and!; [reflexivity..|]. apply not_elem_of_empty.
Defined.

Lemma clean_blob_storage_witness :
  ∃ w', clean_blob_storage svc_ok w_mixed = (Ret tt, w') ∧
        (∀ k, container w' !! k =
              if Py.startswith k TREE_FOLDER then container w_mixed !! k else None) ∧
        calls w' = calls w_mixed ++
          (BlobDelete <$> outside_tree_folder (sorted_names (dom (container w_mixed)))).
Proof.
  destruct (clean_blob_storage_deletes_outside_folder svc_ok w_mixed) as [_ H].
  apply H. intros k _ _. reflexivity.
Defined.

Example clean_mixed :
  listing (container (clean_blob_storage svc_ok w_mixed).2) =
    [("tree-pictures/sub/y.png", [x04]); ("tree-pictures/z.png", [x02])] ∧
  calls (clean_blob_storage svc_ok w_mixed).2 = [BlobDelete "a.jpg"; BlobDelete "clip.mp4"].
Proof. split; vm_compute; reflexivity. Qed.

Lemma upload_local_images_witness :
  ∃ w', upload_local_images svc_ok "pics" w_pics = (Ret tt, w') ∧
        calls w' = calls w_pics ++ uploads (files w_pics) "pics" (dir_entries w_pics "pics") ∧
        ∀ n, container w' !! n =
             if decide (n ∈ dir_entries w_pics "pics" ∧ is_video n = false ∧
                        is_Some (files w_pics !! Py.join "pics" n))
             then files w_pics !! Py.join "pics" n
             else container w_pics !! n.
Proof.
  destruct (upload_local_images_uploads_non_videos svc_ok "pics" w_pics) as [_ H].
  apply H; [by vm_compute|]. intros n _. reflexivity.
Defined.

Example upload_pics :
  listing (container (upload_local_images svc_ok "pics" w_pics).2) = [("a.jpg", [x01])] ∧
  calls (upload_local_images svc_ok "pics" w_pics).2 = [BlobUpload "a.jpg" [x01]].
Proof. split; vm_compute; reflexivity. Qed.

Lemma download_tree_media_witness :
  ∃ w', download_tree_media svc_ok "out" w_mixed = (Ret tt, w') ∧
        "out" ∈ dirs w' ∧
        files w' !! "out/z.png" = Some [x02] ∧
        files w' !! "out/y.png" = Some [x04] ∧
        calls w' = [BlobDownload "tree-pictures/sub/y.png"; BlobDownload "tree-pictures/z.png"].
Proof.
  destruct (download_tree_media_retrieves_tree_folder svc_ok "out" w_mixed) as (_ & _ & H).
  destruct H as (w' & Hrun & Hdir & Hcalls & Hfiles & _).
  - done.
  - by vm_compute.
  - intros b Hb. split; [reflexivity|].
    assert (b = "tree-pictures/sub/y.png" ∨ b = "tree-pictures/z.png") as [-> | ->].
    { revert Hb. vm_compute. intros Hb.
      repeat (apply elem_of_cons in Hb as [Hb|Hb]; [auto|]). by apply elem_of_nil in Hb. }
    + split; [by vm_compute|]. apply not_elem_of_empty.
    + split; [by vm_compute|]. apply not_elem_of_empty.
  - exists w'. rewrite Hfiles, Hcalls. split_and!; [done|done|by vm_compute..].
Defined.

Lemma move_destination_witness :
  ∃ w1 w2,
    move_blob_to_tree_folder cfg0 svc_ok "a/x.jpg" w_xx = (Ret tt, w1) ∧
    container w1 !! (TREE_FOLDER +:+ Py.basename "a/x.jpg") = Some [x01] ∧
    move_blob_to_tree_folder cfg0 svc_ok "b/x.jpg" w1 = (Ret tt, w2) ∧
    container w2 !! (TREE_FOLDER +:+ Py.basename "a/x.jpg") = Some [x02].
Proof.
  destruct (move_destination_is_basename cfg0 svc_ok) as (_ & _ & H).
  apply H; by vm_compute.
Defined.

End Examples.

Module MoreExamples.

Import Byte.
Import Worlds.
Import MoreWorlds.

Example analyze_image_default_keyword :
  (analyze_image net_down "https://example.com/a.jpg" (Some "") w_empty).2 =
  World ∅ ∅ ∅
    ["Analyzing image: https://example.com/a.jpg";
     "Error analyzing image https://example.com/a.jpg: analyze_image failed: https://example.com/a.jpg"]
    [].
Proof. by vm_compute. Qed.

Example analyze_image_caption :
  (analyze_image net_ok "https://example.com/a.jpg" (Some "DESK") w_empty).1 = Ret true ∧
  (analyze_image net_ok "https://example.com/a.jpg" (Some "key") w_empty).1 = Ret false ∧
  (analyze_image net_ok "https://example.com/a.jpg" None w_empty).1 = Ret false.
Proof. split_and!; by vm_compute. Qed.

Example iter_content_pieces :
  iter_content 2 [x01; x02; x03; x04; x05] = [[x01; x02]; [x03; x04]; [x05]].
Proof. reflexivity. Qed.

Lemma analyze_image_case_insensitive_witness :
  (analyze_image net_ok "https://example.com/a.jpg" (Some "LAPTOP") w_empty).1 =
  (analyze_image net_ok "https://example.com/a.jpg" (Some "laptop") w_empty).1.
Proof.
  apply (analyze_image_case_insensitive net_ok "https://example.com/a.jpg" "LAPTOP" "laptop"
           w_empty); by vm_compute.
Defined.



Lemma test_vision_api_always_true_witness :
  stdout (test_vision_api net_down w_empty).2 =
    stdout w_empty ++
    ["Testing Azure Computer Vision API with a sample image...";
     "Analyzing image: " +:+ sample_image_url;
     "Error analyzing image " +:+ sample_image_url +:+ ": " +:+
       exn_str (HttpResponseError "analyze_image" sample_image_url);
     "API test completed, but the sample image doesn't contain the expected content."].
Proof.
  destruct (test_vision_api_always_true net_down w_empty) as [_ H].
  apply H. reflexivity.
Defined.

Lemma clean_blob_storage_idempotent_witness :
  ∃ w1 w2, clean_blob_storage svc_ok w_mixed = (Ret tt, w1) ∧
           clean_blob_storage svc_ok w1 = (Ret tt, w2) ∧
           container w2 = container w1 ∧ calls w2 = calls w1.
Proof.
  apply (clean_blob_storage_idempotent svc_ok w_mixed).
  intros k _ _. reflexivity.
Defined.

Lemma analyze_after_clean_witness :
  ∃ w1, clean_blob_storage svc_ok w_ab = (Ret tt, w1) ∧
        ∀ keywords, analyze_and_move_blobs cfg0 svc_ok keywords w1 = (Ret tt, w1).
Proof.
  apply (analyze_after_clean_does_nothing cfg0 svc_ok w_ab).
  intros k _ _. reflexivity.
Defined.

Lemma main_upload_clean_analyze_witness :
  ∃ w' deleted,
    main cfg0 svc_ok (Args (Some "pics") true true None ["tree"]) w_pics = (Ret tt, w') ∧
    calls w' = calls w_pics ++ uploads (files w_pics) "pics" (dir_entries w_pics "pics") ++
               (BlobDelete <$> deleted) ∧
    (∀ n data, BlobUpload n data ∈ uploads (files w_pics) "pics" (dir_entries w_pics "pics") →
               n ∈ deleted) ∧
    (∀ k, container w' !! k =
          if Py.startswith k TREE_FOLDER then container w_pics !! k else None).
Proof.
  apply (main_upload_clean_analyze cfg0 svc_ok "pics" ["tree"] w_pics).
  - done.
  - by vm_compute.
  - intros n. reflexivity.
  - intros k. reflexivity.
Defined.

Example main_upload_clean_analyze_pics :
  calls (main cfg0 svc_ok (Args (Some "pics") true true None ["tree"]) w_pics).2 =
    [BlobUpload "a.jpg" [x01]; BlobDelete "a.jpg"] ∧
  listing (container (main cfg0 svc_ok (Args (Some "pics") true true None ["tree"]) w_pics).2)
    = [].
Proof. split; vm_compute; reflexivity. Qed.

Lemma main_stops_at_failed_delete_witness :
  ∃ e deleted w',
    main cfg0 svc_delete_fails (Args None true true (Some "out") ["tree"]) w_ab
      = (Raise e, w') ∧
    calls w' = calls w_ab ++ (BlobDelete <$> deleted) ∧
    files w' = files w_ab ∧ dirs w' = dirs w_ab ∧
    (∀ k, Py.startswith k TREE_FOLDER = true → container w' !! k = container w_ab !! k).
Proof.
  apply (main_stops_at_failed_delete cfg0 svc_delete_fails true (Some "out") ["tree"] w_ab).
  exists "a.jpg". split_and!; [|by vm_compute..].
  apply elem_of_dom. exists [x01]. by vm_compute.
Defined.

Lemma analyze_without_keywords_witness :
  ∃ w', analyze_and_move_blobs cfg0 svc_copy_fails [] w_mixed = (Ret tt, w') ∧
        container w' = container w_mixed ∧
        calls w' = calls w_mixed ++
          (BlobDownload <$>
             non_videos (outside_tree_folder (sorted_names (dom (container w_mixed))))) ∧
        (∀ p, files w' !! p =
              if decide (p ∈ temp_path_of <$>
                           non_videos (outside_tree_folder
                                         (sorted_names (dom (container w_mixed)))))
              then None else files w_mixed !! p).
Proof.
  apply (analyze_without_keywords cfg0 svc_copy_fails w_mixed).
  intros b _. split; [reflexivity|apply not_elem_of_empty].
Defined.

Lemma analyze_with_empty_keyword_witness :
  ∃ w' new,
    analyze_and_move_blobs cfg0 svc_ok [""] w_ab = (Ret tt, w') ∧
    calls w' = calls w_ab ++ new ∧
    ∀ b data, container w_ab !! b = Some data →
      Py.startswith b TREE_FOLDER = false → is_video b = false →
      (tags_of svc_ok data = [] → BlobCopy (tree_blob_name b) (blob_url cfg0 b) ∉ new) ∧
      ("" ∈ [""] →
       (BlobCopy (tree_blob_name b) (blob_url cfg0 b) ∈ new ↔ tags_of svc_ok data ≠ [])).
Proof.
  apply (analyze_with_empty_keyword cfg0 svc_ok [""] w_ab).
  intros b _ _ _. split_and!; [reflexivity..|]. apply not_elem_of_empty.
Defined.

Example analyze_empty_keyword_moves_both :
  listing (container (analyze_and_move_blobs cfg0 svc_ok [""] w_ab).2) =
    [("a.jpg", [x01]); ("b.jpg", [x02]);
     ("tree-pictures/a.jpg", [x01]); ("tree-pictures/b.jpg", [x02])].
Proof. vm_compute. reflexivity. Qed.

Lemma upload_local_images_idempotent_witness :
  ∃ w1 w2, upload_local_images svc_ok "pics" w_pics = (Ret tt, w1) ∧
           upload_local_images svc_ok "pics" w1 = (Ret tt, w2) ∧
           container w2 = container w1.
Proof.
  apply (upload_local_images_idempotent svc_ok "pics" w_pics).
  - by vm_compute.
  - intros n _. reflexivity.
Defined.

Lemma dom_w_ab (k : string) : k ∈ dom (container w_ab) → k = "a.jpg" ∨ k = "b.jpg".
Proof.
  intros Hk%elem_of_sorted_names. vm_compute in Hk.
  repeat (apply elem_of_cons in Hk as [Hk|Hk]; [auto|]). by apply elem_of_nil in Hk.
Qed.

Lemma main_analyze_then_download_witness :
  ∃ w',
    main cfg0 svc_ok (Args None false true (Some "out") ["tree"]) w_ab = (Ret tt, w') ∧
    files w' !! Py.join "out" (Py.basename "a.jpg") = Some [x01] ∧
    container w' !! "a.jpg" = Some [x01].
Proof.
  apply (main_analyze_then_download cfg0 svc_ok "out" ["tree"] "a.jpg" [x01] "tree" "tree" w_ab).
  - done.
  - apply not_elem_of_dom. reflexivity.
  - intros k. reflexivity.
  - intros dst url. reflexivity.
  - intros k [-> | ->]%dom_w_ab;
      (split_and!; [by vm_compute|apply not_elem_of_empty..]).
  - by vm_compute.
  - by vm_compute.
  - by vm_compute.
  - by left.
  - vm_compute. by left.
  - by vm_compute.
  - intros k [-> | ->]%dom_w_ab; [done|]. vm_compute. intros [=].
Defined.

Lemma analyze_and_move_blobs_calls_witness :
  ∃ w', analyze_and_move_blobs cfg0 svc_ok ["car"; "boat"] w_mixed = (Ret tt, w') ∧
        calls w' = calls w_mixed ++
          mjoin ((λ b, match container w_mixed !! b with
                       | Some data =>
                           BlobDownload b ::
                           if blob_matches svc_ok ["car"; "boat"] data
                           then [VisionAnalyze data;
                                 BlobCopy (tree_blob_name b) (blob_url cfg0 b)]
                           else replicate (length ["car"; "boat"]) (VisionAnalyze data)
                       | None => []
                       end) <$>
                 non_videos (outside_tree_folder (sorted_names (dom (container w_mixed))))).
Proof.
  apply (analyze_and_move_blobs_calls cfg0 svc_ok ["car"; "boat"] w_mixed).
  intros b _. split_and!; [reflexivity..|]. apply not_elem_of_empty.
Defined.

Example analyze_calls_per_keyword :
  calls (analyze_and_move_blobs cfg0 svc_ok ["car"; "boat"] w_mixed).2 =
    [BlobDownload "a.jpg"; VisionAnalyze [x01]; VisionAnalyze [x01]].
Proof. vm_compute. reflexivity. Qed.

End MoreExamples.
